(** * Paparazzi points to polygons with SAM: the notebook's pipeline

    A shallow embedding of [notebooks/paparazzi_point_to_polygon_with_sam.ipynb]:
    the image resolver [get_image], the per-point prediction loop, the
    score-ordered mask selection and the result writer, with the theorems
    that settle the specification's claims about them.

    Conventions of the model.
    - Text is [string]; [str.split], [str.join], [Path.stem], [str] of a
      list of integers and the format [{:03d}] are written out.
    - A [Path] is the list of its components.
    - A cell of the frame read by pandas is an integer, a float (held by
      its [repr]) or text; a row carries the element type of its Series,
      which follows the three columns. Polygon vertices are integers.
    - Scores are values of any type under numpy's sort order, [a < b] or
      [b] is NaN and [a] is not: a strict weak order, NaN above every
      number. [np.argsort] is a sort whose order among equal values is a
      parameter, since numpy's default sort is not stable.
    - The notebook's cell is a loop over annotation files that mutates
      variables of the notebook ([row] survives from one loop to the next)
      and writes files; it is modelled in a state-and-exception monad whose
      state holds [row] and the log of the files written.
    - The SAM2 predictor, pandas' [read_csv] and the helpers imported from
      [utils] are parameters of the model. *)

From Stdlib Require Import ZArith Ascii String List Lia Sorted.
From Stdlib Require Import DecimalString DecimalNat DecimalZ.
From stdpp Require Import base option list strings gmap sorting.

Local Open Scope string_scope.
Local Open Scope list_scope.

(** ** Python strings *)

Module PyStr.

(** [s.split(sep)] for a one-character separator: the tokens between the
    occurrences of [sep]; never empty ([''.split('_') == ['']]). *)
Fixpoint split (sep : ascii) (s : string) : list string :=
  match s with
  | EmptyString => [EmptyString]
  | String c s' =>
      if Ascii.eqb c sep then EmptyString :: split sep s'
      else match split sep s' with
           | [] => [String c EmptyString]
           | t :: ts => String c t :: ts
           end
  end.

(** [sep.join(l)] *)
Definition join (sep : string) (l : list string) : string := String.concat sep l.

(** [l[:-1]] *)
Definition drop_last {A} (l : list A) : list A := removelast l.

(** [c in s] *)
Fixpoint contains (c : ascii) (s : string) : bool :=
  match s with
  | EmptyString => false
  | String a s' => Ascii.eqb a c || contains c s'
  end.

(** [s.rfind(c)], [None] for Python's -1. *)
Fixpoint rfind (c : ascii) (s : string) : option nat :=
  match s with
  | EmptyString => None
  | String a s' =>
      match rfind c s' with
      | Some i => Some (S i)
      | None => if Ascii.eqb a c then Some 0 else None
      end
  end.

(** [s[:i]] *)
Definition prefix (i : nat) (s : string) : string := String.substring 0 i s.

(** [str(n)] for a non-negative [int]. *)
Definition str_nat (n : nat) : string := NilEmpty.string_of_uint (Nat.to_uint n).

(** [str(z)] for an [int]. *)
Definition str_int (z : Z) : string := NilEmpty.string_of_int (Z.to_int z).

(** ['0' * n] *)
Fixpoint zeros (n : nat) : string :=
  match n with
  | O => EmptyString
  | S n' => String "0" (zeros n')
  end.

(** [f"{n:03d}"] for a non-negative [n]: the decimal digits, padded on the
    left with zeros up to width 3 (longer numbers are not truncated). *)
Definition fmt03 (n : nat) : string :=
  let s := str_nat n in
  zeros (3 - String.length s) +:+ s.

(** [str(l)] for a list of [int]: ['[a, b, c]']. *)
Definition str_list (l : list Z) : string :=
  "[" +:+ join ", " (map str_int l) +:+ "]".

End PyStr.

(** ** pathlib *)

Module PyPath.

Definition Path := list string.

(** [p.joinpath(name)], for a relative one-component [name]. *)
Definition joinpath (p : Path) (name : string) : Path := (p ++ [name])%list.

(** [p.name] *)
Definition name (p : Path) : string := List.last p EmptyString.

(** [PurePath.stem] of Python 3.10, on the final component:
    [i = name.rfind('.')], [name[:i]] if [0 < i < len(name) - 1], else [name]. *)
Definition stem_of_name (n : string) : string :=
  match PyStr.rfind "." n with
  | Some i =>
      if (0 <? i)%nat && (i <? String.length n - 1)%nat then PyStr.prefix i n else n
  | None => n
  end.

Definition stem (p : Path) : string := stem_of_name (name p).

End PyPath.

(** ** numpy *)

Module Np.

Section Sorting.
Context {A : Type} (ltb : A -> A -> bool).

(** One step of a sort of the indices by insertion: the entry [x] moves
    left past every entry strictly greater than it; past an entry that is
    neither above nor below it, it moves or not as [choose] says, for the
    default sort of numpy is not stable and gives equal values an order of
    its own. The sorted prefix is held last entry first. *)
Fixpoint shift (choose : nat -> nat -> bool) (x : nat * A) (prefix : list (nat * A))
  : list (nat * A) :=
  match prefix with
  | [] => [x]
  | y :: rest =>
      if ltb (snd x) (snd y) || (negb (ltb (snd y) (snd x)) && choose (fst x) (fst y))
      then y :: shift choose x rest
      else x :: y :: rest
  end.

(** The array of indices paired with the values, [0 .. n-1] from [i]. *)
Fixpoint enumerate_from (i : nat) (a : list A) : list (nat * A) :=
  match a with
  | [] => []
  | v :: a' => (i, v) :: enumerate_from (S i) a'
  end.

(** [np.argsort(a)]: the indices that sort [a] in ascending order. What
    numpy does with equal values of the array [a] is [tie a]: [tie a i j]
    tells whether the index [i] is to stand before the smaller index [j]. *)
Definition argsort (tie : list A -> nat -> nat -> bool) (a : list A) : list nat :=
  rev (map fst (fold_left (fun prefix x => shift (tie a) x prefix) (enumerate_from 0 a) [])).

(** The choice of a stable sort: equal values keep their order. *)
Definition stable (a : list A) (i j : nat) : bool := false.

(** The opposite choice: equal values come out in reverse order. *)
Definition reversing (a : list A) (i j : nat) : bool := true.
End Sorting.

(** [a[ind]] for an index array [ind]. numpy raises on an index out of
    range; the indices given here come from [argsort] and are all in range
    (lemma [take_sorted_length]). *)
Definition take_indices {A} (a : list A) (ind : list nat) : list A :=
  omap (fun i => a !! i) ind.

(** [a[::-1]] *)
Definition reversed {A} (a : list A) : list A := rev a.

(** [b.astype(np.uint8)] on one entry of a boolean mask. *)
Definition astype_uint8 (b : bool) : Z := if b then 1%Z else 0%Z.

(** The product of two [uint8] values wraps around at 256. *)
Definition mul_uint8 (a b : Z) : Z := ((a * b) mod 256)%Z.

End Np.

(** ** Data model *)

(** A binary mask, [H] rows of [W] entries. *)
Definition mask := list (list bool).

(** A single-channel [uint8] raster. *)
Definition raster := list (list Z).

(** A cell of a frame, as pandas holds it: an element of an [int64]
    column, of a [float64] column (a float is held by its [repr], which
    tells floats apart; a missing cell is the float [nan]) or of a column
    of text. *)
Inductive value :=
| VInt (z : Z)
| VFloat (repr : string)
| VText (s : string).

Coercion VInt : Z >-> value.
Coercion VText : string >-> value.

(** The element type of a row that [iterrows] yields: the common type of
    the three columns of the frame. *)
Inductive elem_type :=
| EObject
| EInt64
| EFloat64.

(** One row of the frame read from an annotation file, as [iterrows]
    yields it: the three cells and the element type of the Series. *)
Record AnnotationRecord := mkAnnotation {
  x : value;
  y : value;
  label : value;
  dtype : elem_type
}.
Arguments mkAnnotation (x y)%_Z label%_string dtype.

(** One row of [df_result]. *)
Record PolygonRecord := mkPolygonRecord {
  image_file : string;
  prompt : string;
  mask_id : string;
  polygon : string
}.

(** What a written file holds. *)
Inductive content :=
| Png (pixels : raster)
| Csv (columns : list string) (rows : list PolygonRecord)
| Other (description : string).

(** Python exceptions, by class name. *)
Definition exn := string.

Inductive outcome (A : Type) :=
| Return (a : A)
| Raise (e : exn).
Arguments Return {A} a.
Arguments Raise {A} e.

(** One call of [predictor.predict]: [point_coords], [point_labels] and
    [multimask_output]. *)
Definition point_prompt : Type := list (value * value) * list Z * bool.

(** The variable of the notebook that outlives one pass of the loop over
    the annotation files, the files written so far and the prompts issued to
    the predictor so far, oldest first. *)
Record state := mkState {
  row : option AnnotationRecord;
  written : list (PyPath.Path * content);
  issued : list point_prompt
}.

(** ** The notebook's monad: state that survives an exception *)

Definition M (A : Type) : Type := state -> outcome A * state.

Definition ret {A} (a : A) : M A := fun st => (Return a, st).

Definition bind {A B} (m : M A) (k : A -> M B) : M B :=
  fun st =>
    match m st with
    | (Return a, st') => k a st'
    | (Raise e, st') => (Raise e, st')
    end.

Definition raise {A} (e : exn) : M A := fun st => (Raise e, st).

(** The result of a call into a library. *)
Definition call {A} (o : outcome A) : M A := fun st => (o, st).

Definition assign_row (r : AnnotationRecord) : M unit :=
  fun st => (Return tt, mkState (Some r) (written st) (issued st)).

(** Reading the variable [row]; unbound, it is a [NameError]. *)
Definition read_row : M AnnotationRecord :=
  fun st =>
    match row st with
    | Some r => (Return r, st)
    | None => (Raise "NameError", st)
    end.

Definition write_file (p : PyPath.Path) (c : content) : M unit :=
  fun st => (Return tt, mkState (row st) (written st ++ [(p, c)])%list (issued st)).

Definition write_files (l : list (PyPath.Path * content)) : M unit :=
  fun st => (Return tt, mkState (row st) (written st ++ l)%list (issued st)).

Declare Scope nb_scope.
Delimit Scope nb_scope with nb.
Notation "v <- m ;; k" := (bind m (fun v => k))
  (at level 63, m at next level, right associativity) : nb_scope.
Notation "m ;;; k" := (bind m (fun _ => k))
  (at level 63, right associativity) : nb_scope.

(** ** The pipeline *)

(** [image_dir] and [results_dir] of the notebook. *)
Definition image_dir : PyPath.Path := [".."; "data"; "20240813"; "VID_05_GP_50"].
Definition results_dir : PyPath.Path := [".."; "results"; "paparazzi_results"].

(** The columns of [df_result]. *)
Definition result_columns : list string := ["image_file"; "prompt"; "mask_id"; "polygon"].

(** [image_name] of [get_image]: the stem without its last
    underscore-delimited token. *)
Definition image_name_of (annotation_name : string) : string :=
  PyStr.join "_" (PyStr.drop_last (PyStr.split "_" annotation_name)).

(** [mask[0].astype(np.uint8) * 255] on a two-dimensional mask. *)
Definition mask_to_uint8 (m : mask) : raster :=
  map (map (fun b => Np.mul_uint8 (Np.astype_uint8 b) 255)) m.

(** [repr] of an element [v] of a row of element type [dt]. In a row of
    type [object] an integer is a Python [int] and a float a Python
    [float]; the other cases (numpy scalars, whose [repr] changed with
    numpy 2, and text, with its quotes) are [repr_other]. *)
Definition elem_text (repr_other : elem_type -> value -> string) (dt : elem_type)
    (v : value) : string :=
  match dt, v with
  | EObject, VInt z => PyStr.str_int z
  | EObject, VFloat repr => repr
  | _, _ => repr_other dt v
  end.

(** [str([row["x"], row["y"]])] *)
Definition row_text (repr_other : elem_type -> value -> string) (r : AnnotationRecord)
  : string :=
  "[" +:+ elem_text repr_other (dtype r) (x r) +:+ ", " +:+
  elem_text repr_other (dtype r) (y r) +:+ "]".

(** [polygon.ravel().tolist()] *)
Definition ravel (polygon : list (Z * Z)) : list Z :=
  flat_map (fun v => [fst v; snd v]) polygon.

Section Pipeline.
(** A decoded image. *)
Context {image : Type}.
(** The type of a confidence score and the order in which numpy sorts. *)
Context {score : Type} (score_ltb : score -> score -> bool).
(** What [np.argsort] does with equal scores. *)
Variable tie : list score -> nat -> nat -> bool.
(** The image files on disk that [Image.open] decodes, by path, with the
    decoded image. A file that exists and does not decode makes
    [Image.open] raise: such a file is outside the model. *)
Variable images : gmap PyPath.Path image.
(** [pd.read_csv(file, delimiter="\t", header=None, names=["x","y","label"])]. *)
Variable read_csv : PyPath.Path -> outcome (list AnnotationRecord).
(** [predictor.predict(point_coords, point_labels, multimask_output)] on
    the image given to [predictor.set_image]: the candidate masks with
    their scores, in the order returned, or the exception raised. The
    coordinates are the two cells of the row. The array that numpy builds
    from them holds the same numbers as integers or as floats, as the
    elements of the row are; the predictor is taken to depend on the
    numbers only. *)
Variable predict :
  image -> list (value * value) -> list Z -> bool -> outcome (list (mask * score)).
(** [repr] of the elements of a row that are not Python numbers. *)
Variable repr_other : elem_type -> value -> string.
(** [utils.get_polygon], imported by the notebook and not part of it: from
    the raster of a mask to the ordered vertices of its contour. *)
Variable get_polygon : raster -> list (Z * Z).
(** [utils.save_image_masks], imported by the notebook and not part of it:
    the files it writes. *)
Variable save_image_masks :
  list (list mask) -> string -> PyPath.Path -> list (PyPath.Path * content).

Local Open Scope nb_scope.

(** A call of [predictor.predict], recorded in the state. *)
Definition ask (img : image) (point_coords : list (value * value)) (point_labels : list Z)
    (multimask_output : bool) : M (list (mask * score)) :=
  fun st =>
    (predict img point_coords point_labels multimask_output,
     mkState (row st) (written st)
       (issued st ++ [(point_coords, point_labels, multimask_output)])%list).

(** [get_image(annotation_name, image_dir)] *)
Definition get_image (annotation_name : string) (image_dir : PyPath.Path)
  : option image * option PyPath.Path :=
  let image_name := image_name_of annotation_name in
  let image_file := PyPath.joinpath image_dir (image_name +:+ ".jpg") in
  match images !! image_file with
  | Some test_image => (Some test_image, Some image_file)
  | None => (None, None)
  end.

(** [np.ones(1)] *)
Definition ones1 : list Z := [1%Z].

(** The three lines after [predictor.predict]: both arrays reordered by
    descending score. *)
Definition sort_by_score (candidates : list (mask * score)) : list mask * list score :=
  let masks := map fst candidates in
  let scores := map snd candidates in
  let sorted_ind := Np.reversed (Np.argsort score_ltb tie scores) in
  (Np.take_indices masks sorted_ind, Np.take_indices scores sorted_ind).

(** The body of [for i, row in df_annotations.iterrows()], with the three
    accumulators passed along. The prompt is the array of the two cells,
    whatever the element type of the row. *)
Fixpoint predict_loop (img : image) (rows : list AnnotationRecord)
    (acc : list (value * value) * list (list mask) * list (list score))
  : M (list (value * value) * list (list mask) * list (list score)) :=
  match rows with
  | [] => ret acc
  | r :: rows' =>
      assign_row r ;;;
      let prompt := [(x r, y r)] in
      candidates <- ask img prompt ones1 false ;;
      let '(masks, scores) := sort_by_score candidates in
      let '(all_prompts, all_masks, all_scores) := acc in
      predict_loop img rows'
        ((all_prompts ++ [(x r, y r)])%list, (all_masks ++ [masks])%list,
         (all_scores ++ [scores])%list)
  end.

(** The body of [for i, mask in enumerate(all_masks)]; [df_result] is
    passed along. *)
Fixpoint write_loop (save_dir : PyPath.Path) (image_file_name : string) (i : nat)
    (all_masks : list (list mask)) (df_result : list PolygonRecord)
  : M (list PolygonRecord) :=
  match all_masks with
  | [] => ret df_result
  | mask :: rest =>
      mask0 <- (match mask with
                | m :: _ => ret m
                | [] => raise "IndexError"
                end) ;;
      let mask_np := mask_to_uint8 mask0 in
      let mask_id := (i + 1)%nat in
      write_file (PyPath.joinpath save_dir (PyStr.fmt03 mask_id +:+ ".png")) (Png mask_np) ;;;
      r <- read_row ;;
      let polygon := get_polygon mask_np in
      let rec := mkPolygonRecord image_file_name (row_text repr_other r)
                   (PyStr.fmt03 mask_id) (PyStr.str_list (ravel polygon)) in
      write_loop save_dir image_file_name (S i) rest (df_result ++ [rec])%list
  end.

(** One pass of [for file in annotation_files]. The calls that only draw
    ([show_res_multi], [show_points], [plt.show]) are left out, but for
    [np.vstack] of an empty list, which raises. [predictor.set_image],
    [save_image_masks], [mkdir], [Image.save], [get_polygon] and [to_csv]
    are taken to return: their failures (an image of an unexpected mode, a
    disk that is full) are outside the model. *)
Definition process_file (file : PyPath.Path) : M unit :=
  let '(image, image_file) := get_image (PyPath.stem file) image_dir in
  match image with
  | None => ret tt
  | Some img =>
      df_annotations <- call (read_csv file) ;;
      acc <- predict_loop img df_annotations ([], [], []) ;;
      let '(all_prompts, all_masks, all_scores) := acc in
      (match all_prompts with
       | [] => raise "ValueError"
       | _ => ret tt
       end) ;;;
      match image_file with
      | None => raise "AttributeError"
      | Some image_file =>
          write_files (save_image_masks all_masks (PyPath.stem image_file) results_dir) ;;;
          let save_dir := PyPath.joinpath results_dir (PyPath.stem image_file) in
          df_result <- write_loop save_dir (PyPath.name image_file) 0 all_masks [] ;;
          write_file (PyPath.joinpath save_dir "polygon_masks.csv")
            (Csv result_columns df_result)
      end
  end.

(** [for file in annotation_files: ...]: an exception ends the run. *)
Fixpoint run (annotation_files : list PyPath.Path) : M unit :=
  match annotation_files with
  | [] => ret tt
  | file :: rest => process_file file ;;; run rest
  end.

(** The mask kept for one prompt: [mask[0]] of the reordered candidates. *)
Definition retained (candidates : list (mask * score)) : option mask :=
  head (fst (sort_by_score candidates)).

End Pipeline.

(** ** Vocabulary of the statements *)

(** The decimal digit [d] as a character. *)
Definition digit (d : nat) : ascii := ascii_of_nat (48 + d).

(** The three decimal digits of a number below 1000. *)
Definition three_digits (n : nat) : string :=
  String (digit (n / 100)) (String (digit (n / 10 mod 10)) (String (digit (n mod 10)) EmptyString)).

(** Every character of [s] satisfies [P]. *)
Fixpoint all_chars (P : ascii -> bool) (s : string) : bool :=
  match s with
  | EmptyString => true
  | String c s' => P c && all_chars P s'
  end.

(** A character of a decimal integer: the sign or a digit. *)
Definition int_char (c : ascii) : bool :=
  Ascii.eqb c "-" || ((48 <=? nat_of_ascii c)%nat && (nat_of_ascii c <=? 57)%nat).

(** [b] is an entry of the indexed array [l] that no entry exceeds under
    [ltb]. *)
Definition maximum {A} (ltb : A -> A -> bool) (l : list (nat * A)) (b : nat * A) : Prop :=
  b ∈ l /\ forall c, c ∈ l -> ltb b.2 c.2 = false.

(** The image file that [get_image] looks for, for an annotation file. *)
Definition resolved (file : PyPath.Path) : PyPath.Path :=
  PyPath.joinpath image_dir (image_name_of (PyPath.stem file) +:+ ".jpg").

(** The directory of the results of an annotation file. *)
Definition save_dir_of (file : PyPath.Path) : PyPath.Path :=
  PyPath.joinpath results_dir (PyPath.stem (resolved file)).

(** The prompt issued for an annotation row. *)
Definition prompt_of (r : AnnotationRecord) : point_prompt := ([(x r, y r)], [1%Z], false).

(** The raster file of the mask [m] at position [k] (from 0). *)
Definition png_of (save_dir : PyPath.Path) (k : nat) (m : mask) : PyPath.Path * content :=
  (PyPath.joinpath save_dir (PyStr.fmt03 (k + 1) +:+ ".png"), Png (mask_to_uint8 m)).

(** The table row of the mask [m] at position [k] (from 0), with the
    text of the row [r] in its prompt column. *)
Definition record_of (repr_other : elem_type -> value -> string)
    (get_polygon : raster -> list (Z * Z)) (image_file_name : string)
    (r : AnnotationRecord) (k : nat) (m : mask) : PolygonRecord :=
  mkPolygonRecord image_file_name (row_text repr_other r) (PyStr.fmt03 (k + 1))
    (PyStr.str_list (ravel (get_polygon (mask_to_uint8 m)))).

(** Two rows with the same point. *)
Definition same_point (r r' : AnnotationRecord) : Prop := x r = x r' /\ y r = y r'.

(** Two results of [read_csv] that differ at most in the label column:
    the same exception, or frames with the same points row by row. The
    labels may differ, and with them the element type of the rows. *)
Definition same_points (o o' : outcome (list AnnotationRecord)) : Prop :=
  match o, o' with
  | Return rows, Return rows' => Forall2 same_point rows rows'
  | Raise e, Raise e' => e = e'
  | _, _ => False
  end.

(** A prompt with the single foreground label [1] and one mask asked for. *)
Definition foreground (p : point_prompt) : Prop := p.1.2 = [1%Z] /\ p.2 = false.

(** Two table rows that agree on the image, the mask id and the polygon;
    the prompt column, the text of a row of the frame, is left aside. *)
Definition same_record (rec rec' : PolygonRecord) : Prop :=
  image_file rec = image_file rec' /\
  mask_id rec = mask_id rec' /\
  polygon rec = polygon rec'.

(** Two files with the same path and the same content, up to the prompt
    column of a table. *)
Definition same_file (f f' : PyPath.Path * content) : Prop :=
  f.1 = f'.1 /\
  match f.2, f'.2 with
  | Png pixels, Png pixels' => pixels = pixels'
  | Csv columns rows, Csv columns' rows' =>
      columns = columns' /\ Forall2 same_record rows rows'
  | Other d, Other d' => d = d'
  | _, _ => False
  end.

(** Two states with the same point in [row], the same files written up to
    the prompt column of the tables, and the same prompts issued. *)
Definition same_outputs (st st' : state) : Prop :=
  option_Forall2 same_point (row st) (row st') /\
  Forall2 same_file (written st) (written st') /\ issued st = issued st'.

(** Two results of a step of the notebook: values related by [R] or the
    same exception, and states alike in the sense of [same_outputs]. *)
Definition same_results {A} (R : A -> A -> Prop) (p p' : outcome A * state) : Prop :=
  match p.1, p'.1 with
  | Return a, Return a' => R a a'
  | Raise e, Raise e' => e = e'
  | _, _ => False
  end /\ same_outputs p.2 p'.2.

(** A step of the notebook keeps the property [P] of the state, whether it
    returns or raises. *)
Definition preserves {A} (P : state -> Prop) (m : M A) : Prop :=
  forall st, P st -> P (m st).2.

(** The entry [a] may stand before the entry [b] in a descending order:
    [a] is not below [b]. *)
Definition score_before {A} (ltb : A -> A -> bool) (a b : nat * A) : Prop :=
  ltb a.2 b.2 = false.

(** The place of the index [i] in the arrangement [p] of the indices. *)
Fixpoint position (i : nat) (p : list nat) : nat :=
  match p with
  | [] => 0
  | j :: p' => if Nat.eqb i j then 0 else S (position i p')
  end.

(** The choice among equal values that the arrangement [p] shows: the
    index [i] is to stand before [j] when it does in [p]. *)
Definition choice_of {A} (p : list nat) (a : list A) (i j : nat) : bool :=
  (position i p <? position j p)%nat.

(** The index [i] may stand before the index [j] in an ascending order of
    the array [a]: the value at [j] is not below the value at [i]. *)
Definition ascending {A} (ltb : A -> A -> bool) (a : list A) (i j : nat) : Prop :=
  forall u v, a !! i = Some u -> a !! j = Some v -> ltb v u = false.

(** The boolean mask read back from a raster: the pixels equal to 255. *)
Definition raster_to_mask (r : raster) : mask := map (map (Z.eqb 255)) r.

(** Whether the image that [get_image] looks for exists. *)
Definition has_image {image} (images : gmap PyPath.Path image) (file : PyPath.Path) : bool :=
  bool_decide (is_Some (images !! resolved file)).

(** ** Reading a table cell back *)

Module Reader.

(** Modelled from the spec: no reader of [polygon_masks.csv] is part of the
    notebook. The spec's round trip re-parses the text of a [polygon] cell;
    this is that parse, the inverse reading of Python's list literal:
    brackets, items separated by commas, blanks before an item skipped,
    each item a decimal integer. *)
Fixpoint strip_close (s : string) : option string :=
  match s with
  | EmptyString => None
  | String c EmptyString => if Ascii.eqb c "]" then Some EmptyString else None
  | String c s' => option_map (String c) (strip_close s')
  end.

(** Modelled from the spec: the text between the brackets of a list literal. *)
Definition strip_brackets (s : string) : option string :=
  match s with
  | String c s' => if Ascii.eqb c "[" then strip_close s' else None
  | EmptyString => None
  end.

(** Modelled from the spec: the blanks before an item are skipped. *)
Fixpoint lstrip (s : string) : string :=
  match s with
  | String c s' => if Ascii.eqb c " " then lstrip s' else s
  | EmptyString => s
  end.

(** Modelled from the spec: one item, a decimal integer. *)
Definition parse_int (s : string) : option Z :=
  match s with
  | EmptyString => None
  | _ => option_map Z.of_int (NilEmpty.int_of_string s)
  end.

(** Modelled from the spec: all items, or nothing if one is not an integer. *)
Fixpoint parse_items (items : list string) : option (list Z) :=
  match items with
  | [] => Some []
  | s :: items' =>
      match parse_int (lstrip s), parse_items items' with
      | Some z, Some l => Some (z :: l)
      | _, _ => None
      end
  end.

(** Modelled from the spec: the re-parse of a cell into a flat list. *)
Definition parse_list (s : string) : option (list Z) :=
  match strip_brackets s with
  | None => None
  | Some EmptyString => Some []
  | Some body => parse_items (PyStr.split "," body)
  end.

(** Modelled from the spec: the inverse of [ravel], consecutive
    coordinates paired into vertices. *)
Fixpoint pairs (l : list Z) : option (list (Z * Z)) :=
  match l with
  | [] => Some []
  | a :: b :: l' => option_map (cons (a, b)) (pairs l')
  | _ => None
  end.

(** Modelled from the spec: the re-parse of a [polygon] cell into the
    vertex sequence. *)
Definition parse_polygon (s : string) : option (list (Z * Z)) :=
  match parse_list s with
  | Some l => pairs l
  | None => None
  end.

End Reader.

(** ** A small instance of the parameters

    One image [vid_05_0001.jpg] with the annotation file
    [vid_05_0001_points.txt] of the spec's scenario (two points, labels [a]
    and [b]); integer scores; a predictor that answers each point with two
    candidates of equal score. *)

Module Demo.

Definition img_path : PyPath.Path := PyPath.joinpath image_dir "vid_05_0001.jpg".

Definition annotations : PyPath.Path :=
  PyPath.joinpath (PyPath.joinpath image_dir "Annotations") "vid_05_0001_points.txt".

Definition orphan : PyPath.Path :=
  PyPath.joinpath (PyPath.joinpath image_dir "Annotations") "vid_05_0002_points.txt".

Definition plain : PyPath.Path :=
  PyPath.joinpath (PyPath.joinpath image_dir "Annotations") "points.txt".

Definition broken : PyPath.Path :=
  PyPath.joinpath (PyPath.joinpath image_dir "Annotations") "vid_05_0001_bad.txt".

(** An annotation file whose only line is [abc<TAB>10<TAB>a]. *)
Definition malformed : PyPath.Path :=
  PyPath.joinpath (PyPath.joinpath image_dir "Annotations") "vid_05_0001_text.txt".

Definition images : gmap PyPath.Path nat := {[ img_path := 7%nat ]}.

(** The frame of the two lines [10<TAB>10<TAB>a] and [50<TAB>50<TAB>b]: the
    label column is text, so the rows are of type [object]. *)
Definition rows : list AnnotationRecord :=
  [mkAnnotation 10 10 "a" EObject; mkAnnotation 50 50 "b" EObject].

(** The frame of the same two points without labels: the label column is
    [float64], all [nan], and so are the rows. *)
Definition relabelled : list AnnotationRecord :=
  [mkAnnotation 10 10 (VFloat "nan") EFloat64; mkAnnotation 50 50 (VFloat "nan") EFloat64].

(** The frame of the line [abc<TAB>10<TAB>a]: [read_csv] is given no
    [dtype], the column [x] is text. *)
Definition text_row : AnnotationRecord := mkAnnotation "abc" 10 "a" EObject.

(** [pd.read_csv] on the files of the instance; [broken] has a line of
    four fields. *)
Definition read_csv (file : PyPath.Path) : outcome (list AnnotationRecord) :=
  if decide (file = broken) then Raise "ParserError"
  else if decide (file = malformed) then Return [text_row]
  else Return rows.

(** The same files with the labels removed. *)
Definition read_csv' (file : PyPath.Path) : outcome (list AnnotationRecord) :=
  if decide (file = broken) then Raise "ParserError"
  else if decide (file = malformed) then Return [mkAnnotation "abc" 10 (VFloat "nan") EObject]
  else Return relabelled.

Definition blob (px py : Z) : mask :=
  [[Z.eqb px 10; Z.eqb px 50]; [Z.eqb py 10; Z.eqb py 50]].

Definition hole (px py : Z) : mask :=
  [[negb (Z.eqb px 10); false]; [false; negb (Z.eqb py 50)]].

Definition predict (img : nat) (point_coords : list (value * value)) (point_labels : list Z)
    (multimask_output : bool) : outcome (list (mask * Z)) :=
  match point_coords with
  | [(VInt px, VInt py)] => Return [(hole px py, 5%Z); (blob px py, 5%Z)]
  | [_] => Raise "TypeError"
  | _ => Raise "ValueError"
  end.

(** [repr] as numpy 2 and Python print numpy scalars and plain text. *)
Definition repr_other (dt : elem_type) (v : value) : string :=
  match dt, v with
  | EInt64, VInt z => "np.int64(" +:+ PyStr.str_int z +:+ ")"
  | EFloat64, VInt z => "np.float64(" +:+ PyStr.str_int z +:+ ".0)"
  | EFloat64, VFloat repr => "np.float64(" +:+ repr +:+ ")"
  | _, VInt z => PyStr.str_int z
  | _, VFloat repr => repr
  | _, VText t => "'" +:+ t +:+ "'"
  end.

Definition get_polygon (r : raster) : list (Z * Z) :=
  match r with
  | [255%Z; _] :: _ => [(8, 8); (12, 8); (12, 12); (8, 12)]%Z
  | [_; 255%Z] :: _ => [(48, 48); (52, 48); (52, 52); (48, 52)]%Z
  | _ => []
  end.

Definition save_image_masks (all_masks : list (list mask)) (image_stem : string)
    (dir : PyPath.Path) : list (PyPath.Path * content) := [].

Definition start : state := mkState None [] [].

(** A second annotation file for the image [vid_05_0001.jpg]. *)
Definition second : PyPath.Path :=
  PyPath.joinpath (PyPath.joinpath image_dir "Annotations") "vid_05_0001_more.txt".

(** A predictor that fails on the point [(50, 50)]. *)
Definition predict_failing (img : nat) (point_coords : list (value * value))
    (point_labels : list Z) (multimask_output : bool) : outcome (list (mask * Z)) :=
  match point_coords with
  | [(VInt px, VInt py)] =>
      if Z.eqb px 50 then Raise "RuntimeError"
      else Return [(hole px py, 5%Z); (blob px py, 5%Z)]
  | [_] => Raise "TypeError"
  | _ => Raise "ValueError"
  end.

(** A predictor that answers every prompt, whatever the cells of the point. *)
Definition predict_any (img : nat) (point_coords : list (value * value))
    (point_labels : list Z) (multimask_output : bool) : outcome (list (mask * Z)) :=
  Return [(blob 10 10, 5%Z)].

(** A reader that finds no row in any file. *)
Definition read_csv_empty (file : PyPath.Path) : outcome (list AnnotationRecord) :=
  Return [].

(** Scores that may be NaN ([None]), under the order in which numpy
    sorts floats: [a < b], or [b] is NaN and [a] is not. *)
Definition np_lt (a b : option Z) : bool :=
  match a, b with
  | Some u, Some v => Z.ltb u v
  | Some _, None => true
  | None, _ => false
  end.

End Demo.

(** * Properties *)

(** ** Strings *)

Section StringFacts.
Import PyStr.

Lemma append_nil_l s : EmptyString +:+ s = s.
Proof. reflexivity. Qed.

Lemma append_cons c p s : String c p +:+ s = String c (p +:+ s).
Proof. reflexivity. Qed.

Lemma split_nonempty sep s : split sep s <> [].
Proof.
  destruct s as [|c s]; simpl; [discriminate|].
  destruct (Ascii.eqb c sep); [discriminate|].
  destruct (split sep s); discriminate.
Qed.

Lemma split_no_sep sep s : contains sep s = false -> split sep s = [s].
Proof.
  induction s as [|c s IH]; simpl; [reflexivity|].
  intros H. apply orb_false_iff in H as [Hc Hs].
  rewrite Hc, (IH Hs). reflexivity.
Qed.

(** Splitting distributes over a separator placed between two strings. *)
Lemma split_app sep p s :
  split sep (p +:+ String sep s) = (split sep p ++ split sep s)%list.
Proof.
  induction p as [|c p IH]; simpl.
  - rewrite Ascii.eqb_refl. reflexivity.
  - destruct (Ascii.eqb c sep); rewrite IH; [reflexivity|].
    pose proof (split_nonempty sep p) as Hne.
    destruct (split sep p); [congruence|reflexivity].
Qed.

Lemma join_cons2 sep a b l : join sep (a :: b :: l) = a +:+ sep +:+ join sep (b :: l).
Proof. reflexivity. Qed.

Lemma join_split sep s : join (String sep EmptyString) (split sep s) = s.
Proof.
  induction s as [|c s IH]; simpl; [reflexivity|].
  pose proof (split_nonempty sep s) as Hne.
  destruct (Ascii.eqb_spec c sep) as [->|Hc].
  - destruct (split sep s) as [|t ts]; [congruence|].
    rewrite join_cons2, IH. reflexivity.
  - destruct (split sep s) as [|t ts]; [congruence|].
    destruct ts as [|t' ts].
    + simpl in *. congruence.
    + rewrite <- IH. reflexivity.
Qed.

Lemma append_assoc a b c : (a +:+ b) +:+ c = a +:+ (b +:+ c).
Proof.
  induction a as [|x a IH]; [reflexivity|].
  rewrite !append_cons, IH. reflexivity.
Qed.

Lemma join_snoc sep a tokens last :
  join sep ((a :: tokens) ++ [last]) = join sep (a :: tokens) +:+ sep +:+ last.
Proof.
  revert a. induction tokens as [|b tokens IH]; intros a; [reflexivity|].
  change ((a :: b :: tokens) ++ [last]) with (a :: ((b :: tokens) ++ [last])).
  change ((b :: tokens) ++ [last]) with (b :: (tokens ++ [last])).
  rewrite join_cons2.
  change (b :: (tokens ++ [last])) with ((b :: tokens) ++ [last]).
  rewrite IH, join_cons2, !append_assoc. reflexivity.
Qed.

Lemma image_name_of_suffixed p s :
  contains "_" s = false -> image_name_of (p +:+ "_" +:+ s) = p.
Proof.
  intros Hs. unfold image_name_of, drop_last.
  change (p +:+ "_" +:+ s) with (p +:+ String "_" s).
  rewrite split_app, (split_no_sep _ _ Hs), removelast_last.
  apply (join_split "_").
Qed.

Lemma image_name_of_plain s : contains "_" s = false -> image_name_of s = EmptyString.
Proof.
  intros Hs. unfold image_name_of. rewrite (split_no_sep _ _ Hs). reflexivity.
Qed.

(** A string with an underscore ends in an underscore and a last token. *)
Lemma contains_decompose c s :
  contains c s = true ->
  exists p t, s = p +:+ String c t /\ contains c t = false.
Proof.
  induction s as [|a s IH]; simpl; [discriminate|].
  destruct (contains c s) eqn:Hs.
  - intros _. destruct (IH eq_refl) as (p & t & -> & Ht).
    exists (String a p), t. split; [reflexivity|assumption].
  - rewrite orb_false_r. intros Ha. apply Ascii.eqb_eq in Ha as ->.
    exists EmptyString, s. split; [reflexivity|assumption].
Qed.

(** Every stem with an underscore loses exactly its last token. *)
Lemma image_name_of_with_underscore s :
  contains "_" s = true ->
  exists p t, s = p +:+ "_" +:+ t /\ contains "_" t = false /\ image_name_of s = p.
Proof.
  intros Hs. destruct (contains_decompose _ _ Hs) as (p & t & -> & Ht).
  exists p, t. split; [reflexivity|]. split; [exact Ht|].
  by apply image_name_of_suffixed.
Qed.

Lemma rfind_none c s : contains c s = false -> rfind c s = None.
Proof.
  induction s as [|a s IH]; simpl; [reflexivity|].
  intros H. apply orb_false_iff in H as [Ha Hs].
  rewrite (IH Hs), Ha. reflexivity.
Qed.

Lemma rfind_last c p t :
  contains c t = false -> rfind c (p +:+ String c t) = Some (String.length p).
Proof.
  intros Ht. induction p as [|a p IH]; simpl.
  - rewrite (rfind_none _ _ Ht), Ascii.eqb_refl. reflexivity.
  - rewrite IH. reflexivity.
Qed.

Lemma prefix_app p t : prefix (String.length p) (p +:+ t) = p.
Proof.
  unfold prefix. induction p as [|a p IH]; simpl.
  - destruct t; reflexivity.
  - rewrite IH. reflexivity.
Qed.

Lemma length_append p t : String.length (p +:+ t) = (String.length p + String.length t)%nat.
Proof. induction p as [|a p IH]; simpl; [reflexivity|]. rewrite IH. reflexivity. Qed.

(** The stem of [<name>.jpg] is [<name>], unless [<name>] is empty. *)
Lemma stem_of_jpg n : n <> EmptyString -> PyPath.stem_of_name (n +:+ ".jpg") = n.
Proof.
  intros Hn. unfold PyPath.stem_of_name.
  change (n +:+ ".jpg") with (n +:+ String "." "jpg").
  rewrite rfind_last by reflexivity.
  rewrite length_append. simpl.
  destruct n as [|a n]; [congruence|].
  replace (0 <? String.length (String a n))%nat with true
    by (symmetry; apply Nat.ltb_lt; simpl; lia).
  replace (String.length (String a n) <? String.length (String a n) + 4 - 1)%nat with true
    by (symmetry; apply Nat.ltb_lt; lia).
  simpl andb. cbv iota. apply prefix_app.
Qed.

Lemma name_joinpath p n : PyPath.name (PyPath.joinpath p n) = n.
Proof. unfold PyPath.name, PyPath.joinpath. apply last_last. Qed.

(** The results of an annotation file go to the directory named by the
    image name, when that name is not empty. *)
Lemma stem_resolved file :
  image_name_of (PyPath.stem file) <> EmptyString ->
  PyPath.stem (resolved file) = image_name_of (PyPath.stem file).
Proof.
  intros Hne. unfold PyPath.stem at 1, resolved.
  rewrite name_joinpath. by apply stem_of_jpg.
Qed.

End StringFacts.

(** ** Numbers as text *)

Section NumberFacts.
Import PyStr.

(** Below 1000 the format gives exactly three digits: 001, 002, ... *)
Lemma fmt03_three_digits n : (n < 1000)%nat -> fmt03 n = three_digits n.
Proof.
  intros Hn.
  assert (Hall : forallb (fun k => String.eqb (fmt03 k) (three_digits k)) (seq 0 1000) = true)
    by (vm_compute; reflexivity).
  rewrite forallb_forall in Hall.
  apply String.eqb_eq, Hall, in_seq. lia.
Qed.

Lemma uint_of_zeros k s :
  NilEmpty.uint_of_string (zeros k +:+ s) =
  option_map (Nat.iter k Decimal.D0) (NilEmpty.uint_of_string s).
Proof.
  induction k as [|k IH]; simpl zeros.
  - rewrite append_nil_l. destruct (NilEmpty.uint_of_string s); reflexivity.
  - rewrite append_cons. simpl. rewrite IH.
    destruct (NilEmpty.uint_of_string s); reflexivity.
Qed.

Lemma of_uint_zeros k d : Nat.of_uint (Nat.iter k Decimal.D0 d) = Nat.of_uint d.
Proof. induction k as [|k IH]; simpl; [reflexivity|]. exact IH. Qed.

(** The number is read back from its formatted text. *)
Lemma fmt03_read n :
  option_map Nat.of_uint (NilEmpty.uint_of_string (fmt03 n)) = Some n.
Proof.
  unfold fmt03, str_nat. rewrite uint_of_zeros, NilEmpty.usu. simpl.
  rewrite of_uint_zeros, DecimalNat.Unsigned.of_to. reflexivity.
Qed.

Lemma length_zeros k : String.length (zeros k) = k.
Proof. induction k as [|k IH]; simpl; [reflexivity|]. by rewrite IH. Qed.

Lemma fmt03_length n : (3 <= String.length (fmt03 n))%nat.
Proof. unfold fmt03. rewrite length_append, length_zeros. lia. Qed.

Lemma short_uint_small d :
  (String.length (NilEmpty.string_of_uint d) < 3)%nat -> (Nat.of_uint d < 100)%nat.
Proof.
  destruct d as [|d|d|d|d|d|d|d|d|d|d]; [intros _; cbv; lia|..];
    (destruct d as [|d|d|d|d|d|d|d|d|d|d]; [intros _; cbv; lia|..]);
    (destruct d; [intros _; cbv; lia|..]); simpl; intros; lia.
Qed.

(** From 1000 on nothing is padded: the text is the decimal text. *)
Lemma fmt03_large n :
  (1000 <= n)%nat -> fmt03 n = NilEmpty.string_of_uint (Nat.to_uint n).
Proof.
  intros Hn. unfold fmt03, str_nat.
  destruct (lt_dec (String.length (NilEmpty.string_of_uint (Nat.to_uint n))) 3) as [Hlt|Hge].
  - apply short_uint_small in Hlt. rewrite DecimalNat.Unsigned.of_to in Hlt. lia.
  - replace (3 - String.length (NilEmpty.string_of_uint (Nat.to_uint n)))%nat with 0%nat by lia.
    reflexivity.
Qed.

Lemma fmt03_inj a b : fmt03 a = fmt03 b -> a = b.
Proof.
  intros H. pose proof (fmt03_read a) as Ha. rewrite H, fmt03_read in Ha. congruence.
Qed.

Lemma uint_chars d : all_chars int_char (NilEmpty.string_of_uint d) = true.
Proof. induction d; simpl; try rewrite IHd; reflexivity. Qed.

Lemma str_int_chars z : all_chars int_char (str_int z) = true.
Proof.
  unfold str_int. destruct (Z.to_int z); simpl; [|change (int_char "-") with true; simpl];
    apply uint_chars.
Qed.

Lemma str_int_nonempty z : str_int z <> EmptyString.
Proof.
  unfold str_int. destruct z; simpl; try discriminate.
  pose proof (DecimalPos.Unsigned.to_uint_nonnil p) as Hp.
  destruct (Pos.to_uint p); simpl; congruence.
Qed.

Lemma all_chars_contains P c s :
  P c = false -> all_chars P s = true -> contains c s = false.
Proof.
  intros Hc. induction s as [|a s IH]; simpl; [reflexivity|].
  intros H. apply andb_true_iff in H as [Ha Hs].
  rewrite (IH Hs), orb_false_r.
  destruct (Ascii.eqb_spec a c) as [->|]; congruence.
Qed.

End NumberFacts.

(** ** Reading back what [str] wrote *)

Section ReaderFacts.
Import PyStr Reader.

Lemma strip_close_app body : strip_close (body +:+ "]") = Some body.
Proof.
  induction body as [|c body IH]; [reflexivity|].
  rewrite append_cons. simpl.
  destruct (body +:+ "]") as [|a t] eqn:E.
  - destruct body; discriminate.
  - rewrite IH. reflexivity.
Qed.

Lemma split_join_comma a l :
  Forall (fun s => contains "," s = false) (a :: l) ->
  split "," (join ", " (a :: l)) = a :: map (String " ") l.
Proof.
  revert a. induction l as [|b l IH]; intros a Hall.
  - simpl. apply split_no_sep. by inversion Hall.
  - inversion Hall as [|? ? Ha Hrest]; subst.
    rewrite join_cons2.
    change (a +:+ ", " +:+ join ", " (b :: l))
      with (a +:+ String "," (String " " (join ", " (b :: l)))).
    rewrite split_app, (split_no_sep _ _ Ha).
    pose proof (IH b Hrest) as E.
    set (body := join ", " (b :: l)) in *.
    simpl. rewrite E. reflexivity.
Qed.

Lemma lstrip_int s : all_chars int_char s = true -> lstrip s = s.
Proof.
  destruct s as [|c s]; [reflexivity|]. simpl.
  intros H. apply andb_true_iff in H as [Hc _].
  destruct (Ascii.eqb_spec c " ") as [->|]; [discriminate|reflexivity].
Qed.

Lemma parse_int_str_int z : parse_int (str_int z) = Some z.
Proof.
  unfold parse_int. pose proof (str_int_nonempty z) as Hne.
  destruct (str_int z) eqn:E; [congruence|].
  rewrite <- E. unfold str_int. rewrite NilEmpty.isi. simpl.
  rewrite DecimalZ.of_to. reflexivity.
Qed.

Lemma parse_items_spaced l :
  parse_items (map (String " ") (map str_int l)) = Some l.
Proof.
  induction l as [|z l IH]; [reflexivity|].
  simpl. rewrite (lstrip_int _ (str_int_chars z)), parse_int_str_int.
  simpl in IH. rewrite IH. reflexivity.
Qed.

Lemma join_nonempty sep a l : a <> EmptyString -> join sep (a :: l) <> EmptyString.
Proof.
  intros Ha. destruct l as [|b l]; [exact Ha|].
  rewrite join_cons2. destruct a; [congruence|discriminate].
Qed.

(** The text of a list of integers reads back as that list. *)
Lemma parse_list_str_list l : parse_list (str_list l) = Some l.
Proof.
  unfold parse_list, str_list.
  change ("[" +:+ join ", " (map str_int l) +:+ "]")
    with (String "[" (join ", " (map str_int l) +:+ "]")).
  unfold strip_brackets. rewrite Ascii.eqb_refl, strip_close_app.
  destruct l as [|z l]; [reflexivity|].
  pose proof (join_nonempty ", " (str_int z) (map str_int l) (str_int_nonempty z)) as Hne.
  simpl map. destruct (join ", " (str_int z :: map str_int l)) eqn:E; [congruence|].
  rewrite <- E. rewrite split_join_comma.
  - simpl. rewrite (lstrip_int _ (str_int_chars z)), parse_int_str_int.
    rewrite parse_items_spaced. reflexivity.
  - change (Forall (fun s => contains "," s = false) (map str_int (z :: l))).
    apply Forall_map, Forall_forall. intros k _.
    apply (all_chars_contains int_char); [reflexivity|apply str_int_chars].
Qed.

Lemma pairs_ravel polygon : pairs (ravel polygon) = Some polygon.
Proof.
  induction polygon as [|[a b] polygon IH]; [reflexivity|].
  change (pairs (ravel ((a, b) :: polygon)))
    with (option_map (cons (a, b)) (pairs (ravel polygon))).
  rewrite IH. reflexivity.
Qed.

End ReaderFacts.

(** ** Ordering the candidates *)

Section SortFacts.
Context {A : Type} (ltb : A -> A -> bool).

Lemma elem_enumerate_from (a : list A) i k s :
  (k, s) ∈ Np.enumerate_from i a -> (i <= k)%nat /\ a !! (k - i)%nat = Some s.
Proof.
  revert i. induction a as [|v a IH]; intros i; simpl.
  - intros H. inversion H.
  - rewrite elem_of_cons. intros [[= -> ->]|H].
    + rewrite Nat.sub_diag. split; [lia|reflexivity].
    + apply IH in H as [Hle Hk]. split; [lia|].
      replace (k - i)%nat with (S (k - S i)) by lia. exact Hk.
Qed.

Lemma enumerate_from_elem (a : list A) i j s :
  a !! j = Some s -> (i + j, s)%nat ∈ Np.enumerate_from i a.
Proof.
  revert i j. induction a as [|v a IH]; intros i j; simpl; [discriminate|].
  destruct j as [|j]; simpl.
  - intros [= ->]. rewrite Nat.add_0_r. apply list_elem_of_here.
  - intros H. apply list_elem_of_further.
    replace (i + S j)%nat with (S i + j)%nat by lia. by apply IH.
Qed.

(** Whatever the choice among equal values, an insertion keeps the entries. *)
Lemma shift_perm ch (e : nat * A) p : Np.shift ltb ch e p ≡ₚ e :: p.
Proof.
  induction p as [|c p IH]; simpl; [reflexivity|].
  destruct (ltb e.2 c.2 || negb (ltb c.2 e.2) && ch e.1 c.1); [|reflexivity].
  rewrite IH. apply perm_swap.
Qed.

Lemma fold_shift_perm ch (items : list (nat * A)) :
  forall p, fold_left (fun p e => Np.shift ltb ch e p) items p ≡ₚ items ++ p.
Proof.
  induction items as [|e items IH]; intros p; simpl; [reflexivity|].
  rewrite IH, shift_perm. symmetry. apply Permutation_middle.
Qed.

Lemma fst_enumerate_from (a : list A) i :
  map fst (Np.enumerate_from i a) = seq i (length a).
Proof.
  revert i. induction a as [|v a IH]; intros i; simpl; [reflexivity|].
  by rewrite IH.
Qed.

(** [np.argsort(a)] is a rearrangement of the indices of [a]. *)
Lemma argsort_perm tie (a : list A) : Np.argsort ltb tie a ≡ₚ seq 0 (length a).
Proof.
  unfold Np.argsort. rewrite <- Permutation_rev, <- fst_enumerate_from.
  apply Permutation_map. rewrite fold_shift_perm. by rewrite app_nil_r.
Qed.

Lemma take_indices_length {B} (l : list B) ind :
  Forall (fun k => (k < length l)%nat) ind ->
  length (Np.take_indices l ind) = length ind.
Proof.
  unfold Np.take_indices. induction 1 as [|k ind Hk _ IH]; simpl; [reflexivity|].
  destruct (lookup_lt_is_Some_2 l k Hk) as [v ->]. simpl. f_equal. exact IH.
Qed.

(** Indexing by the reversed [argsort] drops nothing: every index is in
    range, as in numpy, where an index out of range would raise. *)
Lemma take_sorted_length {B} tie (l : list B) (a : list A) :
  length l = length a ->
  length (Np.take_indices l (Np.reversed (Np.argsort ltb tie a))) = length a.
Proof.
  intros Hlen. rewrite take_indices_length.
  - unfold Np.reversed. rewrite length_rev, (Permutation_length (argsort_perm tie a)).
    apply length_seq.
  - unfold Np.reversed. apply Forall_forall. intros k Hk.
    rewrite <- Permutation_rev, (argsort_perm tie a) in Hk.
    apply elem_of_seq in Hk. lia.
Qed.

(** The order in which numpy sorts: a strict weak order. *)
Hypothesis ltb_asym : forall a b, ltb a b = true -> ltb b a = false.
Hypothesis ltb_negtrans :
  forall a b c, ltb a b = false -> ltb b c = false -> ltb a c = false.

Lemma ltb_irrefl a : ltb a a = false.
Proof. destruct (ltb a a) eqn:E; [|reflexivity]. rewrite <- E at 1. by apply ltb_asym. Qed.

(** Whatever the choice among equal values, an insertion keeps the prefix
    in descending order. *)
Lemma shift_sorted ch (e : nat * A) p :
  StronglySorted (score_before ltb) p ->
  StronglySorted (score_before ltb) (Np.shift ltb ch e p).
Proof.
  induction p as [|c p IH]; intros Hsorted; simpl.
  - repeat constructor.
  - apply StronglySorted_inv in Hsorted as [Hp Hc].
    destruct (ltb e.2 c.2) eqn:Hec; simpl.
    + constructor; [by apply IH|].
      rewrite shift_perm. constructor; [|exact Hc]. by apply ltb_asym.
    + destruct (ltb c.2 e.2) eqn:Hce; simpl.
      * constructor; [by constructor|]. constructor; [exact Hec|].
        apply Forall_forall. intros d Hd. rewrite Forall_forall in Hc.
        by apply (ltb_negtrans _ c.2), Hc.
      * destruct (ch e.1 c.1).
        -- constructor; [by apply IH|].
           rewrite shift_perm. constructor; [exact Hce|exact Hc].
        -- constructor; [by constructor|]. constructor; [exact Hec|].
           apply Forall_forall. intros d Hd. rewrite Forall_forall in Hc.
           by apply (ltb_negtrans _ c.2), Hc.
Qed.

Lemma fold_shift_sorted ch (items : list (nat * A)) :
  forall p,
    StronglySorted (score_before ltb) p ->
    StronglySorted (score_before ltb) (fold_left (fun p e => Np.shift ltb ch e p) items p).
Proof.
  induction items as [|e items IH]; intros p Hsorted; simpl; [exact Hsorted|].
  by apply IH, shift_sorted.
Qed.

(** [np.argsort(a)[::-1]] starts with the index of a maximum. *)
Lemma reversed_argsort_head tie (a : list A) :
  a <> [] ->
  exists k s,
    head (Np.reversed (Np.argsort ltb tie a)) = Some k /\
    maximum ltb (Np.enumerate_from 0 a) (k, s).
Proof.
  intros Ha. unfold Np.reversed, Np.argsort. rewrite rev_involutive.
  pose proof (fold_shift_sorted (tie a) (Np.enumerate_from 0 a) []
                (SSorted_nil _)) as Hsorted.
  pose proof (fold_shift_perm (tie a) (Np.enumerate_from 0 a) []) as Hperm.
  rewrite app_nil_r in Hperm.
  destruct (fold_left _ _ _) as [|[k s] l].
  - apply Permutation_nil_l in Hperm. destruct a; [congruence|discriminate].
  - exists k, s. split; [reflexivity|].
    apply StronglySorted_inv in Hsorted as [_ Hall]. rewrite Forall_forall in Hall.
    split; [rewrite <- Hperm; apply list_elem_of_here|].
    intros c Hc. rewrite <- Hperm in Hc. apply elem_of_cons in Hc as [->|Hc].
    + apply ltb_irrefl.
    + by apply Hall.
Qed.

End SortFacts.

(** ** The loops of the notebook *)

Section PipelineFacts.
Context {image : Type} {score : Type} (score_ltb : score -> score -> bool).
Variable tie : list score -> nat -> nat -> bool.
Variable images : gmap PyPath.Path image.
Variable read_csv : PyPath.Path -> outcome (list AnnotationRecord).
Variable predict :
  image -> list (value * value) -> list Z -> bool -> outcome (list (mask * score)).
Variable repr_other : elem_type -> value -> string.
Variable get_polygon : raster -> list (Z * Z).
Variable save_image_masks :
  list (list mask) -> string -> PyPath.Path -> list (PyPath.Path * content).

Lemma mask_to_uint8_scaled (m : mask) :
  mask_to_uint8 m = map (map (fun b : bool => if b then 255%Z else 0%Z)) m.
Proof.
  unfold mask_to_uint8. apply map_ext. intros l. apply map_ext. by intros [|].
Qed.

Lemma mask_to_uint8_values (m : mask) :
  Forall (Forall (fun v => v = 0%Z \/ v = 255%Z)) (mask_to_uint8 m).
Proof.
  rewrite mask_to_uint8_scaled. apply Forall_forall. intros l Hl.
  apply list_elem_of_In, in_map_iff in Hl as (l0 & <- & _).
  apply Forall_forall. intros v Hv.
  apply list_elem_of_In, in_map_iff in Hv as ([|] & <- & _); [by right|by left].
Qed.

Lemma lookup_enumerate_from (a : list score) k s :
  (k, s) ∈ Np.enumerate_from 0 a -> a !! k = Some s.
Proof.
  intros H. apply elem_enumerate_from in H as [_ H].
  by rewrite Nat.sub_0_r in H.
Qed.

(** The index at the front of the reordering picks the mask kept. *)
Lemma retained_at (candidates : list (mask * score)) k m s :
  head (Np.reversed (Np.argsort score_ltb tie (map snd candidates))) = Some k ->
  candidates !! k = Some (m, s) ->
  retained score_ltb tie candidates = Some m.
Proof.
  intros Hk Hc. unfold retained, sort_by_score. simpl.
  destruct (Np.reversed _) as [|k' ind]; [discriminate|].
  injection Hk as ->. unfold Np.take_indices. simpl.
  rewrite list_lookup_fmap, Hc. reflexivity.
Qed.

(** Some candidate is kept whenever the predictor returns any. *)
Lemma retained_some (candidates : list (mask * score)) :
  candidates <> [] ->
  exists k m s, retained score_ltb tie candidates = Some m /\ candidates !! k = Some (m, s).
Proof.
  intros Hne.
  pose proof (argsort_perm score_ltb tie (map snd candidates)) as Hperm.
  rewrite length_map in Hperm.
  destruct (Np.reversed (Np.argsort score_ltb tie (map snd candidates)))
    as [|k ind] eqn:Hind.
  - unfold Np.reversed in Hind. apply (f_equal (@length nat)) in Hind.
    rewrite length_rev, (Permutation_length Hperm), length_seq in Hind.
    destruct candidates; [congruence|discriminate].
  - assert (Hk : k ∈ seq 0 (length candidates)).
    { rewrite <- Hperm, (Permutation_rev (Np.argsort _ _ _)).
      unfold Np.reversed in Hind. rewrite Hind. apply list_elem_of_here. }
    apply elem_of_seq in Hk.
    destruct (lookup_lt_is_Some_2 candidates k) as [[m s] Hc]; [lia|].
    exists k, m, s. split; [|exact Hc].
    apply (retained_at _ k m s); [by rewrite Hind|exact Hc].
Qed.

(** Both arrays keep their length when reordered. *)
Lemma sort_by_score_length (candidates : list (mask * score)) :
  length (sort_by_score score_ltb tie candidates).1 = length candidates /\
  length (sort_by_score score_ltb tie candidates).2 = length candidates.
Proof.
  unfold sort_by_score. simpl.
  rewrite !take_sorted_length; rewrite ?length_map; by split.
Qed.

(** The prompt cell of a table row is built from the row [r] alone,
    whatever the position [k] of the mask. *)
Lemma record_of_prompt nm r k m :
  prompt (record_of repr_other get_polygon nm r k m) = row_text repr_other r.
Proof. reflexivity. Qed.

(** The prediction loop, when every call of the predictor returns. *)
Lemma predict_loop_ok img rows cs :
  Forall2 (fun r c => predict img [(x r, y r)] [1%Z] false = Return c) rows cs ->
  forall acc st,
    predict_loop score_ltb tie predict img rows acc st =
    (Return (acc.1.1 ++ map (fun r => (x r, y r)) rows,
             acc.1.2 ++ map (fun c => (sort_by_score score_ltb tie c).1) cs,
             acc.2 ++ map (fun c => (sort_by_score score_ltb tie c).2) cs),
     mkState (match last rows with Some r => Some r | None => row st end)
       (written st) (issued st ++ map prompt_of rows)).
Proof.
  induction 1 as [|r c rows cs Hr _ IH]; intros [[ap am] asc] st; simpl.
  - rewrite !app_nil_r. by destruct st.
  - unfold bind at 1. simpl. unfold bind at 1, ask, ones1. simpl. rewrite Hr.
    destruct (sort_by_score score_ltb tie c) as [masks scores] eqn:Hs.
    rewrite IH. simpl. rewrite <- !app_assoc. simpl.
    rewrite last_cons. unfold prompt_of at 2.
    destruct (last rows); reflexivity.
Qed.

(** The writing loop, when every entry of [all_masks] has a first mask
    and [row] is bound. *)
Lemma write_loop_ok save_dir nm r all_masks ms :
  Forall2 (fun masks m => head masks = Some m) all_masks ms ->
  forall i df st,
    row st = Some r ->
    write_loop repr_other get_polygon save_dir nm i all_masks df st =
    (Return (df ++ imap (fun k => record_of repr_other get_polygon nm r (i + k)) ms),
     mkState (Some r) (written st ++ imap (fun k => png_of save_dir (i + k)) ms) (issued st)).
Proof.
  induction 1 as [|masks m all_masks ms Hm _ IH]; intros i df st Hrow; simpl.
  - rewrite !app_nil_r. destruct st; simpl in *. by subst.
  - destruct masks as [|m0 masks]; [discriminate|]. injection Hm as ->.
    unfold bind at 1. simpl. unfold bind at 1, write_file. simpl.
    unfold bind at 1, read_row. simpl. rewrite Hrow.
    rewrite IH by reflexivity. simpl. rewrite <- !app_assoc. simpl.
    unfold record_of at 2, png_of at 2. rewrite Nat.add_0_r.
    assert (E1 : imap (fun k => record_of repr_other get_polygon nm r (S (i + k))) ms =
                 imap ((fun k => record_of repr_other get_polygon nm r (i + k)) ∘ S) ms)
      by (apply imap_ext; intros k ? _; simpl; by rewrite Nat.add_succ_r).
    assert (E2 : imap (fun k => png_of save_dir (S (i + k))) ms =
                 imap ((fun k => png_of save_dir (i + k)) ∘ S) ms)
      by (apply imap_ext; intros k ? _; simpl; by rewrite Nat.add_succ_r).
    rewrite E1, E2. reflexivity.
Qed.

Lemma bind_call {A B} (o : outcome A) (k : A -> M B) st :
  bind (call o) k st = match o with Return a => k a st | Raise e => (Raise e, st) end.
Proof. by destruct o. Qed.

Lemma get_image_found file img :
  images !! resolved file = Some img ->
  get_image images (PyPath.stem file) image_dir = (Some img, Some (resolved file)).
Proof. unfold get_image, resolved. by intros ->. Qed.

Lemma get_image_missing file :
  images !! resolved file = None ->
  get_image images (PyPath.stem file) image_dir = (None, None).
Proof. unfold get_image, resolved. by intros ->. Qed.

(** Every row answered with at least one candidate: the answers and the
    masks kept exist, row by row. *)
Lemma predictions_exist img rows :
  (forall r, r ∈ rows ->
     exists c, predict img [(x r, y r)] [1%Z] false = Return c /\ c <> []) ->
  exists cs ms,
    Forall2 (fun r c => predict img [(x r, y r)] [1%Z] false = Return c) rows cs /\
    Forall2 (fun c m => retained score_ltb tie c = Some m) cs ms.
Proof.
  induction rows as [|r rows IH]; intros Hall.
  - exists [], []. split; constructor.
  - destruct (Hall r) as (c & Hc & Hne); [apply list_elem_of_here|].
    destruct IH as (cs & ms & Hcs & Hms).
    { intros r' Hr'. apply Hall. by apply list_elem_of_further. }
    destruct (retained_some c Hne) as (k & m & s & Hm & _).
    exists (c :: cs), (m :: ms). split; by constructor.
Qed.

(** One annotation file processed to the end: the state it leaves. *)
Lemma process_file_ok file img rows r cs ms st :
  images !! resolved file = Some img ->
  read_csv file = Return rows ->
  last rows = Some r ->
  Forall2 (fun r c => predict img [(x r, y r)] [1%Z] false = Return c) rows cs ->
  Forall2 (fun c m => retained score_ltb tie c = Some m) cs ms ->
  process_file score_ltb tie images read_csv predict repr_other get_polygon save_image_masks file st =
  (Return tt,
   mkState (Some r)
     (written st ++
      save_image_masks (map (fun c => (sort_by_score score_ltb tie c).1) cs)
        (PyPath.stem (resolved file)) results_dir ++
      imap (png_of (save_dir_of file)) ms ++
      [(PyPath.joinpath (save_dir_of file) "polygon_masks.csv",
        Csv result_columns (imap (record_of repr_other get_polygon (PyPath.name (resolved file)) r) ms))])
     (issued st ++ map prompt_of rows)).
Proof.
  intros Himg Hread Hlast Hcs Hms.
  unfold process_file. rewrite (get_image_found _ _ Himg).
  unfold bind at 1, call. rewrite Hread.
  unfold bind at 1. rewrite (predict_loop_ok img rows cs Hcs). simpl.
  rewrite Hlast.
  destruct rows as [|r0 rows]; [discriminate|]. simpl.
  unfold bind at 1. simpl. unfold bind at 1, write_files. simpl.
  unfold bind at 1.
  rewrite (write_loop_ok _ _ r _ ms); [|by apply Forall2_fmap_l|reflexivity].
  unfold write_file, save_dir_of. simpl. rewrite <- !app_assoc.
  reflexivity.
Qed.

Lemma answers_exist img rows :
  (forall r, r ∈ rows -> exists c, predict img [(x r, y r)] [1%Z] false = Return c) ->
  exists cs, Forall2 (fun r c => predict img [(x r, y r)] [1%Z] false = Return c) rows cs.
Proof.
  induction rows as [|r rows IH]; intros Hall.
  - exists []. constructor.
  - destruct (Hall r) as (c & Hc); [apply list_elem_of_here|].
    destruct IH as (cs & Hcs).
    { intros r' Hr'. apply Hall. by apply list_elem_of_further. }
    exists (c :: cs). by constructor.
Qed.

Lemma write_loop_issued save_dir nm all_masks :
  forall i df st,
    issued (write_loop repr_other get_polygon save_dir nm i all_masks df st).2 = issued st.
Proof.
  induction all_masks as [|masks all_masks IH]; intros i df st; simpl; [reflexivity|].
  destruct masks as [|m0 masks]; [reflexivity|].
  unfold bind at 1. simpl. unfold bind at 1, write_file. simpl.
  unfold bind at 1, read_row. simpl.
  destruct (row st); [|reflexivity]. by rewrite IH.
Qed.

(** The prompts issued for a file whose rows are all answered: one per
    row, whatever happens in the writing that follows. *)
Lemma process_issued file img rows st :
  images !! resolved file = Some img ->
  read_csv file = Return rows ->
  (forall r, r ∈ rows -> exists c, predict img [(x r, y r)] [1%Z] false = Return c) ->
  issued (process_file score_ltb tie images read_csv predict repr_other get_polygon
            save_image_masks file st).2 = issued st ++ map prompt_of rows.
Proof.
  intros Himg Hread Hall.
  destruct (answers_exist img rows Hall) as (cs & Hcs).
  unfold process_file. rewrite (get_image_found _ _ Himg), bind_call, Hread.
  unfold bind at 1. rewrite (predict_loop_ok img rows cs Hcs). simpl.
  unfold bind at 1.
  destruct (map (fun r => (x r, y r)) rows) as [|p0 ps]; [reflexivity|]. simpl.
  unfold bind at 1, write_files. simpl. unfold bind at 1.
  match goal with
  | |- context [write_loop ?ro ?g ?d ?n ?i ?a ?f ?t] =>
      pose proof (write_loop_issued d n a i f t) as Hi;
      destruct (write_loop ro g d n i a f t) as [[df|e] s]
  end; simpl in *; exact Hi.
Qed.

(** A frame without rows, as [read_csv] returns for an empty file:
    [np.vstack] of the empty list of prompts raises before anything is
    written. *)
Lemma empty_frame_raises file img st :
  images !! resolved file = Some img ->
  read_csv file = Return [] ->
  process_file score_ltb tie images read_csv predict repr_other get_polygon save_image_masks file st =
  (Raise "ValueError", st).
Proof.
  intros Himg Hread. unfold process_file.
  rewrite (get_image_found _ _ Himg), bind_call, Hread. by destruct st.
Qed.

(** *** Two runs on files that differ in the label column *)

Lemma same_file_refl f : same_file f f.
Proof.
  split; [reflexivity|]. destruct f.2 as [pixels|columns rows|d]; [reflexivity| |reflexivity].
  split; [reflexivity|]. apply Forall_Forall2_diag, Forall_forall. by intros rec _.
Qed.

Lemma same_files_refl l : Forall2 same_file l l.
Proof. apply Forall_Forall2_diag, Forall_forall. intros f _. apply same_file_refl. Qed.

Lemma same_outputs_refl st : same_outputs st st.
Proof.
  split; [|split; [apply same_files_refl|reflexivity]].
  destruct (row st); constructor. by split.
Qed.

Lemma rel_bind {A B} (R : A -> A -> Prop) (R' : B -> B -> Prop)
    (m m' : M A) (k k' : A -> M B) st st' :
  same_results R (m st) (m' st') ->
  (forall a a' s s', R a a' -> same_outputs s s' -> same_results R' (k a s) (k' a' s')) ->
  same_results R' (bind m k st) (bind m' k' st').
Proof.
  intros [Ho Hs] Hk. unfold bind.
  destruct (m st) as [[a|e] s], (m' st') as [[a'|e'] s']; simpl in Ho, Hs;
    try contradiction.
  - by apply Hk.
  - subst. by split.
Qed.

Lemma rel_return {A} (R : A -> A -> Prop) a a' st st' :
  R a a' -> same_outputs st st' -> same_results R (Return a, st) (Return a', st').
Proof. by split. Qed.

Lemma rel_raise {A} (R : A -> A -> Prop) e st st' :
  same_outputs st st' -> same_results R (Raise e, st) (Raise e, st').
Proof. by split. Qed.

Lemma predict_loop_rel img rows rows' :
  Forall2 same_point rows rows' ->
  forall acc st st',
    same_outputs st st' ->
    same_results eq (predict_loop score_ltb tie predict img rows acc st)
                    (predict_loop score_ltb tie predict img rows' acc st').
Proof.
  induction 1 as [|r r' rows rows' [Hx Hy] _ IH]; intros acc st st' Hst; simpl.
  - by apply rel_return.
  - apply (rel_bind eq).
    { destruct Hst as (_ & Hw & Hi). unfold assign_row.
      apply rel_return; [reflexivity|]. split; [constructor; by split|]. by split. }
    intros _ _ s s' _ (Hr & Hw & Hi). apply (rel_bind eq).
    { unfold ask. rewrite Hx, Hy, Hi.
      destruct (predict img [(x r', y r')] ones1 false);
        [apply rel_return; [reflexivity|]|apply rel_raise]; by split. }
    intros c ? s1 s1' <- Hs1.
    destruct (sort_by_score score_ltb tie c) as [masks scores].
    destruct acc as [[ap am] asc]. rewrite Hx, Hy. by apply IH.
Qed.

Lemma write_loop_rel save_dir nm all_masks :
  forall i df df' st st',
    Forall2 same_record df df' ->
    same_outputs st st' ->
    same_results (Forall2 same_record)
      (write_loop repr_other get_polygon save_dir nm i all_masks df st)
      (write_loop repr_other get_polygon save_dir nm i all_masks df' st').
Proof.
  induction all_masks as [|masks all_masks IH]; intros i df df' st st' Hdf Hst; simpl.
  - by apply rel_return.
  - apply (rel_bind eq).
    { destruct masks; [by apply rel_raise|by apply rel_return]. }
    intros m0 ? s s' <- Hs. apply (rel_bind eq).
    { destruct Hs as (Hr & Hw & Hi). unfold write_file.
      apply rel_return; [reflexivity|]. split; [exact Hr|]. split; [|exact Hi].
      simpl. apply Forall2_app; [exact Hw|]. constructor; [apply same_file_refl|constructor]. }
    intros _ _ s1 s1' _ (Hr & Hw & Hi).
    unfold bind, read_row.
    destruct s1 as [r1 w1 i1], s1' as [r1' w1' i1']. simpl in *.
    destruct Hr as [r r' [Hx Hy]|]; simpl.
    + apply IH.
      * apply Forall2_app; [exact Hdf|]. constructor; [by repeat split|constructor].
      * split; [constructor; by split|by split].
    + apply rel_raise. split; [constructor|by split].
Qed.

Variable read_csv' : PyPath.Path -> outcome (list AnnotationRecord).

Lemma process_file_rel file st st' :
  same_points (read_csv file) (read_csv' file) ->
  same_outputs st st' ->
  same_results eq
    (process_file score_ltb tie images read_csv predict repr_other get_polygon save_image_masks file st)
    (process_file score_ltb tie images read_csv' predict repr_other get_polygon save_image_masks file st').
Proof.
  intros Hread Hst. unfold process_file.
  destruct (get_image images (PyPath.stem file) image_dir) as [[img|] image_file].
  2: { by apply rel_return. }
  rewrite !bind_call.
  destruct (read_csv file) as [rows|e], (read_csv' file) as [rows'|e'];
    simpl in Hread; try contradiction.
  2: { subst. by apply rel_raise. }
  apply (rel_bind eq); [by apply predict_loop_rel|].
  intros [[ap am] asc] ? s s' <- Hs. apply (rel_bind eq).
  { destruct ap; [by apply rel_raise|by apply rel_return]. }
  intros _ _ s1 s1' _ Hs1.
  destruct image_file as [image_file|]; [|by apply rel_raise].
  apply (rel_bind eq).
  { destruct Hs1 as (Hr & Hw & Hi). unfold write_files.
    apply rel_return; [reflexivity|]. split; [exact Hr|]. split; [|exact Hi].
    simpl. apply Forall2_app; [exact Hw|apply same_files_refl]. }
  intros _ _ s2 s2' _ Hs2.
  apply (rel_bind (Forall2 same_record)); [apply write_loop_rel; [constructor|exact Hs2]|].
  intros df df' s3 s3' Hdf (Hr & Hw & Hi). unfold write_file.
  apply rel_return; [reflexivity|]. split; [exact Hr|]. split; [|exact Hi].
  simpl. apply Forall2_app; [exact Hw|].
  constructor; [|constructor]. split; [reflexivity|]. simpl. by split.
Qed.

Lemma run_rel files :
  (forall file, same_points (read_csv file) (read_csv' file)) ->
  forall st st',
    same_outputs st st' ->
    same_results eq
      (run score_ltb tie images read_csv predict repr_other get_polygon save_image_masks files st)
      (run score_ltb tie images read_csv' predict repr_other get_polygon save_image_masks files st').
Proof.
  intros Hread. induction files as [|file files IH]; intros st st' Hst; simpl.
  - by apply rel_return.
  - apply (rel_bind eq); [by apply process_file_rel|].
    intros _ _ s s' _ Hs. by apply IH.
Qed.

(** *** Every prompt issued is a foreground prompt *)

Lemma preserves_bind {A B} (P : state -> Prop) (m : M A) (k : A -> M B) :
  preserves P m -> (forall a, preserves P (k a)) -> preserves P (bind m k).
Proof.
  intros Hm Hk st Hst. unfold bind. specialize (Hm st Hst).
  destruct (m st) as [[a|e] s]; simpl in *; [by apply Hk|exact Hm].
Qed.

Lemma preserves_pure {A} (P : state -> Prop) (o : outcome A) :
  preserves P (fun st => (o, st)).
Proof. by intros st Hst. Qed.

Lemma preserves_written {A} (m : M A) :
  (forall st, issued (m st).2 = issued st) ->
  preserves (fun st => Forall foreground (issued st)) m.
Proof. intros Hm st Hst. by rewrite Hm. Qed.

Lemma predict_loop_foreground img rows :
  forall acc,
    preserves (fun st => Forall foreground (issued st))
      (predict_loop score_ltb tie predict img rows acc).
Proof.
  induction rows as [|r rows IH]; intros acc; simpl.
  - apply preserves_pure.
  - apply preserves_bind; [by apply preserves_written|].
    intros _. apply preserves_bind.
    + intros st Hst. unfold ask. simpl. apply Forall_app. split; [exact Hst|].
      constructor; [by split|constructor].
    + intros c. destruct (sort_by_score score_ltb tie c), acc as [[? ?] ?]. apply IH.
Qed.

Lemma write_loop_foreground save_dir nm all_masks :
  forall i df,
    preserves (fun st => Forall foreground (issued st))
      (write_loop repr_other get_polygon save_dir nm i all_masks df).
Proof.
  induction all_masks as [|masks all_masks IH]; intros i df; simpl.
  - apply preserves_pure.
  - apply preserves_bind; [destruct masks; apply preserves_pure|].
    intros m0. apply preserves_bind; [by apply preserves_written|].
    intros _. apply preserves_bind.
    + intros st Hst. unfold read_row. by destruct (row st).
    + intros r. apply IH.
Qed.

Lemma process_file_foreground file :
  preserves (fun st => Forall foreground (issued st))
    (process_file score_ltb tie images read_csv predict repr_other get_polygon save_image_masks file).
Proof.
  unfold process_file.
  destruct (get_image images (PyPath.stem file) image_dir) as [[img|] image_file];
    [|apply preserves_pure].
  apply preserves_bind; [apply preserves_pure|].
  intros rows. apply preserves_bind; [apply predict_loop_foreground|].
  intros [[ap am] asc]. apply preserves_bind; [destruct ap; apply preserves_pure|].
  intros _. destruct image_file as [image_file|]; [|apply preserves_pure].
  apply preserves_bind; [by apply preserves_written|].
  intros _. apply preserves_bind; [apply write_loop_foreground|].
  intros df. by apply preserves_written.
Qed.

Lemma run_foreground files :
  preserves (fun st => Forall foreground (issued st))
    (run score_ltb tie images read_csv predict repr_other get_polygon save_image_masks files).
Proof.
  induction files as [|file files IH]; simpl; [apply preserves_pure|].
  apply preserves_bind; [apply process_file_foreground|]. intros _. exact IH.
Qed.

(** *** The prompts issued only grow *)

Lemma preserves_issued {A} (Q : list point_prompt -> Prop) (m : M A) :
  (forall st, issued (m st).2 = issued st) ->
  preserves (fun st => Q (issued st)) m.
Proof. intros Hm st Hst. by rewrite Hm. Qed.

Lemma predict_loop_grows (b : list point_prompt) img rows :
  forall acc,
    preserves (fun st => b `prefix_of` issued st)
      (predict_loop score_ltb tie predict img rows acc).
Proof.
  induction rows as [|r rows IH]; intros acc; simpl.
  - apply preserves_pure.
  - apply preserves_bind; [by apply (preserves_issued (prefix b))|].
    intros _. apply preserves_bind.
    + intros st Hst. unfold ask. simpl. by apply prefix_app_r.
    + intros c. destruct (sort_by_score score_ltb tie c), acc as [[? ?] ?]. apply IH.
Qed.

Lemma write_loop_grows (b : list point_prompt) save_dir nm all_masks :
  forall i df,
    preserves (fun st => b `prefix_of` issued st)
      (write_loop repr_other get_polygon save_dir nm i all_masks df).
Proof.
  intros i df st Hst. by rewrite write_loop_issued.
Qed.

(** The first row that [read_csv] returns reaches the predictor, whatever
    its cells hold and whatever the predictor answers. *)
Lemma process_issues_first file img r rows st :
  images !! resolved file = Some img ->
  read_csv file = Return (r :: rows) ->
  (issued st ++ [prompt_of r]) `prefix_of`
    issued (process_file score_ltb tie images read_csv predict repr_other get_polygon
              save_image_masks file st).2.
Proof.
  intros Himg Hread.
  unfold process_file. rewrite (get_image_found _ _ Himg), bind_call, Hread.
  set (b := issued st ++ [prompt_of r]).
  assert (Hloop : forall acc,
            b `prefix_of` issued (predict_loop score_ltb tie predict img (r :: rows) acc st).2).
  { intros acc. simpl. unfold bind at 1. simpl. unfold bind at 1, ask, ones1. simpl.
    destruct (predict img [(x r, y r)] [1%Z] false) as [c|e]; simpl; [|reflexivity].
    destruct (sort_by_score score_ltb tie c), acc as [[? ?] ?].
    by apply predict_loop_grows. }
  unfold bind at 1. specialize (Hloop ([], [], [])).
  destruct (predict_loop score_ltb tie predict img (r :: rows) ([], [], []) st)
    as [[[[ap am] asc]|e] s]; simpl in *; [|exact Hloop].
  revert s Hloop.
  apply (preserves_bind (fun st => b `prefix_of` issued st));
    [destruct ap; apply preserves_pure|].
  intros _. apply preserves_bind; [by apply (preserves_issued (prefix b))|].
  intros _. apply preserves_bind; [apply write_loop_grows|].
  intros df. by apply (preserves_issued (prefix b)).
Qed.

End PipelineFacts.

(** * The claims *)

Section Claims.
Context {image : Type} {score : Type} (score_ltb : score -> score -> bool).
Variable tie : list score -> nat -> nat -> bool.
Variable images : gmap PyPath.Path image.
Variable read_csv : PyPath.Path -> outcome (list AnnotationRecord).
Variable predict :
  image -> list (value * value) -> list Z -> bool -> outcome (list (mask * score)).
Variable repr_other : elem_type -> value -> string.
Variable get_polygon : raster -> list (Z * Z).
Variable save_image_masks :
  list (list mask) -> string -> PyPath.Path -> list (PyPath.Path * content).

Local Abbreviation process :=
  (process_file score_ltb tie images read_csv predict repr_other get_polygon save_image_masks).
Local Abbreviation running :=
  (run score_ltb tie images read_csv predict repr_other get_polygon save_image_masks).

(** C4. The image of an annotation file is found from its stem alone: for
    a stem made of the tokens [tokens] and a last token [last] joined by
    underscores, the image name is the tokens without the last one,
    joined by underscores again, and [get_image] answers with what the
    directory holds under that name followed by [.jpg]; so for the stem
    [S_T_U_SUFFIX] the file looked up is [S_T_U.jpg]. *)
Theorem get_image_drops_last_token (tokens : list string) (last : string) (dir : PyPath.Path) :
  PyStr.contains "_" last = false ->
  let stem := PyStr.join "_" (tokens ++ [last]) in
  let image_file := PyPath.joinpath dir (PyStr.join "_" tokens +:+ ".jpg") in
  image_name_of stem = PyStr.join "_" tokens /\
  get_image images stem dir =
    match images !! image_file with
    | Some img => (Some img, Some image_file)
    | None => (None, None)
    end /\
  image_name_of "S_T_U_SUFFIX" = "S_T_U".
Proof.
  intros Hlast stem image_file.
  assert (Hname : image_name_of stem = PyStr.join "_" tokens).
  { subst stem. destruct tokens as [|a tokens].
    - simpl. by apply image_name_of_plain.
    - rewrite join_snoc. by apply image_name_of_suffixed. }
  split; [exact Hname|]. split; [|reflexivity].
  unfold get_image. rewrite Hname. reflexivity.
Qed.

(** C10. For an annotation file whose stem has no underscore the image
    name is empty and the file looked up is [.jpg] in the image
    directory; when that file does not exist the annotation file is
    skipped: nothing is raised, the state is unchanged and the run goes on
    with the next file. *)
Theorem stem_without_underscore (file : PyPath.Path) (rest : list PyPath.Path) (st : state) :
  PyStr.contains "_" (PyPath.stem file) = false ->
  image_name_of (PyPath.stem file) = EmptyString /\
  resolved file = PyPath.joinpath image_dir ".jpg" /\
  get_image images (PyPath.stem file) image_dir =
    match images !! PyPath.joinpath image_dir ".jpg" with
    | Some img => (Some img, Some (PyPath.joinpath image_dir ".jpg"))
    | None => (None, None)
    end /\
  (images !! PyPath.joinpath image_dir ".jpg" = None ->
   process file st = (Return tt, st) /\
   running (file :: rest) st = running rest st).
Proof.
  intros Hstem. pose proof (image_name_of_plain _ Hstem) as Hname.
  assert (Hres : resolved file = PyPath.joinpath image_dir ".jpg").
  { unfold resolved. by rewrite Hname. }
  split; [exact Hname|]. split; [exact Hres|]. split.
  - unfold get_image. by rewrite Hname.
  - intros Hnone. rewrite <- Hres in Hnone.
    assert (Hp : process file st = (Return tt, st)).
    { unfold process_file.
      by rewrite (get_image_missing _ _ Hnone). }
    split; [exact Hp|].
    simpl. unfold bind at 1. by rewrite Hp.
Qed.

(** C5. When the image expected for an annotation file is absent,
    [get_image] answers [(None, None)], processing the file raises
    nothing and leaves the state as it was (no file written, no prompt
    issued), and the run continues with the files that follow. *)
Theorem missing_image_is_skipped (file : PyPath.Path) (rest : list PyPath.Path) (st : state) :
  images !! resolved file = None ->
  get_image images (PyPath.stem file) image_dir = (None, None) /\
  process file st = (Return tt, st) /\
  running (file :: rest) st = running rest st.
Proof.
  intros Hnone.
  assert (Hp : process file st = (Return tt, st)).
  { unfold process_file.
    by rewrite (get_image_missing _ _ Hnone). }
  split; [by apply get_image_missing|]. split; [exact Hp|].
  simpl. unfold bind at 1. by rewrite Hp.
Qed.

(** C9, as amended. A failure raised by [read_csv] on an annotation file
    whose image exists is not caught: processing the file ends with that
    exception before anything is written or any prompt issued, and the
    run ends with it too, the files that follow being left unprocessed.
    What [read_csv] returns is not checked for numbers: the point of the
    first row returned is passed to the predictor as it was read, whatever
    its cells hold. *)
Theorem read_failure_propagates (file : PyPath.Path) (img : image)
    (rest : list PyPath.Path) (st : state) :
  images !! resolved file = Some img ->
  (forall e, read_csv file = Raise e ->
     process file st = (Raise e, st) /\
     running (file :: rest) st = (Raise e, st)) /\
  (forall r rows, read_csv file = Return (r :: rows) ->
     exists more, issued (process file st).2 = issued st ++ [prompt_of r] ++ more).
Proof.
  intros Himg. split.
  - intros e Hread.
    assert (Hp : process file st = (Raise e, st)).
    { unfold process_file.
      rewrite (get_image_found _ _ _ Himg), bind_call, Hread. reflexivity. }
    split; [exact Hp|].
    simpl. unfold bind at 1. by rewrite Hp.
  - intros r rows Hread.
    destruct (process_issues_first score_ltb tie images read_csv predict repr_other
                get_polygon save_image_masks file img r rows st Himg Hread) as [more Hmore].
    exists more. by rewrite Hmore, <- app_assoc.
Qed.

(** C2, as amended. Among the candidates returned for one prompt, the mask
    kept is one with the maximum score: no candidate outscores it, in the
    order in which numpy sorts (a NaN stands above every number). Which of
    several candidates with that maximum score is kept is not fixed: it is
    what [np.argsort], whose default sort is not stable, makes of equal
    scores. Whenever there is a candidate, one is kept. *)
Theorem retained_is_a_maximum (candidates : list (mask * score)) :
  (forall a b, score_ltb a b = true -> score_ltb b a = false) ->
  (forall a b c, score_ltb a b = false -> score_ltb b c = false -> score_ltb a c = false) ->
  candidates <> [] ->
  exists k m s,
    retained score_ltb tie candidates = Some m /\
    candidates !! k = Some (m, s) /\
    (forall j m' s', candidates !! j = Some (m', s') -> score_ltb s s' = false).
Proof.
  intros Hasym Hneg Hne.
  destruct (reversed_argsort_head score_ltb Hasym Hneg tie (map snd candidates))
    as (k & s & Hhd & Hin & Hmax).
  { destruct candidates; [congruence|discriminate]. }
  apply lookup_enumerate_from in Hin. rewrite list_lookup_fmap in Hin.
  destruct (candidates !! k) as [[m s0]|] eqn:Hk; [|discriminate].
  simpl in Hin. injection Hin as ->.
  exists k, m, s. split; [by apply (retained_at _ _ _ k m s)|].
  split; [exact Hk|].
  intros j m' s' Hj.
  apply (Hmax (j, s')), (enumerate_from_elem (map snd candidates) 0 j s').
  rewrite list_lookup_fmap, Hj. reflexivity.
Qed.

(** C7. The mask kept for the i-th annotation row (from 0; ordinal
    [k = i + 1]) is written as a single-channel raster whose pixels are
    the mask's entries scaled to 0 and 255, hence each exactly 0 or 255,
    in the file named by [k] formatted to three digits with the extension
    [.png], in the directory named by the stem of the image file under
    the results directory; that stem is the image name derived from the
    annotation file, when it is not empty. The name of [k] has at least
    three characters and reads back as [k]; below 1000 it is exactly the
    three digits of [k], zeros in front, and from 1000 on the decimal text
    of [k]. *)
Theorem mask_raster_file (file : PyPath.Path) (img : image)
    (rows : list AnnotationRecord) (st : state) (i : nat) (r : AnnotationRecord) :
  images !! resolved file = Some img ->
  read_csv file = Return rows ->
  (forall r, r ∈ rows ->
     exists c, predict img [(x r, y r)] [1%Z] false = Return c /\ c <> []) ->
  rows !! i = Some r ->
  exists st' c m,
    process file st = (Return tt, st') /\
    predict img [(x r, y r)] [1%Z] false = Return c /\
    retained score_ltb tie c = Some m /\
    (PyPath.joinpath (PyPath.joinpath results_dir (PyPath.stem (resolved file)))
       (PyStr.fmt03 (i + 1) +:+ ".png"),
     Png (map (map (fun b : bool => if b then 255%Z else 0%Z)) m)) ∈ written st' /\
    Forall (Forall (fun v => v = 0%Z \/ v = 255%Z))
      (map (map (fun b : bool => if b then 255%Z else 0%Z)) m) /\
    (image_name_of (PyPath.stem file) <> EmptyString ->
     PyPath.stem (resolved file) = image_name_of (PyPath.stem file)) /\
    (3 <= String.length (PyStr.fmt03 (i + 1)))%nat /\
    option_map Nat.of_uint (NilEmpty.uint_of_string (PyStr.fmt03 (i + 1))) = Some (i + 1)%nat /\
    ((i + 1 < 1000)%nat -> PyStr.fmt03 (i + 1) = three_digits (i + 1)) /\
    ((1000 <= i + 1)%nat ->
     PyStr.fmt03 (i + 1) = NilEmpty.string_of_uint (Nat.to_uint (i + 1))).
Proof.
  intros Himg Hread Hall Hi.
  destruct (predictions_exist score_ltb tie predict img rows Hall) as (cs & ms & Hcs & Hms).
  destruct (last rows) as [r_last|] eqn:Hlast.
  2: { apply last_None in Hlast. subst rows. discriminate. }
  destruct (Forall2_lookup_l _ _ _ _ _ Hcs Hi) as (c & Hci & Hc).
  destruct (Forall2_lookup_l _ _ _ _ _ Hms Hci) as (m & Hmi & Hm).
  eexists _, c, m.
  split; [exact (process_file_ok _ _ _ _ _ _ _ _ _ _ _ _ cs ms st Himg Hread Hlast Hcs Hms)|].
  split; [exact Hc|]. split; [exact Hm|]. split.
  - simpl. rewrite <- mask_to_uint8_scaled.
    apply elem_of_app. right. apply elem_of_app. right. apply elem_of_app. left.
    apply list_elem_of_lookup. exists i. rewrite list_lookup_imap, Hmi. reflexivity.
  - split; [rewrite <- mask_to_uint8_scaled; apply mask_to_uint8_values|].
    split; [apply stem_resolved|].
    split; [apply fmt03_length|]. split; [apply fmt03_read|].
    split; [apply fmt03_three_digits|apply fmt03_large].
Qed.


End Claims.

(** C8. The text written in the polygon column, [str] of the flattened
    vertex list, reads back as the same vertex sequence (and, before the
    coordinates are paired again, as the same flat list). *)
Theorem polygon_text_round_trip (polygon : list (Z * Z)) :
  Reader.parse_list (PyStr.str_list (ravel polygon)) = Some (ravel polygon) /\
  Reader.parse_polygon (PyStr.str_list (ravel polygon)) = Some polygon.
Proof.
  unfold Reader.parse_polygon. rewrite parse_list_str_list.
  split; [reflexivity|apply pairs_ravel].
Qed.

(** * The claims on the small instance *)

Section OnDemo.
Import Demo.

Local Abbreviation demo_process :=
  (process_file Z.ltb Np.stable images read_csv predict repr_other get_polygon save_image_masks).
Local Abbreviation demo_run :=
  (run Z.ltb Np.stable images read_csv predict repr_other get_polygon save_image_masks).

Lemma Zltb_asym (a b : Z) : (a <? b)%Z = true -> (b <? a)%Z = false.
Proof. intros H. apply Z.ltb_lt in H. apply Z.ltb_ge. lia. Defined.

Lemma Zltb_negtrans (a b c : Z) :
  (a <? b)%Z = false -> (b <? c)%Z = false -> (a <? c)%Z = false.
Proof. intros H1 H2. apply Z.ltb_ge in H1, H2. apply Z.ltb_ge. lia. Defined.

Lemma np_lt_asym (a b : option Z) : np_lt a b = true -> np_lt b a = false.
Proof.
  destruct a as [u|], b as [v|]; simpl; try done. apply Zltb_asym.
Defined.

Lemma np_lt_negtrans (a b c : option Z) :
  np_lt a b = false -> np_lt b c = false -> np_lt a c = false.
Proof.
  destruct a as [u|], b as [v|], c as [w|]; simpl; try done. apply Zltb_negtrans.
Defined.

Lemma demo_answers (r : AnnotationRecord) :
  r ∈ rows ->
  exists c, predict 7%nat [(x r, y r)] [1%Z] false = Return c /\ c <> [].
Proof.
  intros Hr. apply elem_of_cons in Hr as [->|Hr].
  { eexists. split; [reflexivity|discriminate]. }
  apply elem_of_cons in Hr as [->|Hr].
  { eexists. split; [reflexivity|discriminate]. }
  by apply elem_of_nil in Hr.
Defined.

Lemma demo_answers_all (r : AnnotationRecord) :
  r ∈ rows -> exists c, predict 7%nat [(x r, y r)] [1%Z] false = Return c.
Proof. intros Hr. destruct (demo_answers r Hr) as (c & Hc & _). by exists c. Defined.

(** C1, on the code. For the annotation file with the two points
    [(10, 10)] and [(50, 50)] the table written has [[50, 50]] in the
    prompt column of both rows: the first row does not record its own
    point [[10, 10]] but the last point of the file. *)
Lemma prompt_column_repeats_last_point :
  exists st' table,
    demo_run [annotations] start = (Return tt, st') /\
    last (written st') =
      Some (PyPath.joinpath (save_dir_of annotations) "polygon_masks.csv",
            Csv result_columns table) /\
    map prompt table = ["[50, 50]"; "[50, 50]"] /\
    map (row_text repr_other) rows = ["[10, 10]"; "[50, 50]"].
Proof.
  eexists _, _. split; [vm_compute; reflexivity|].
  split; [vm_compute; reflexivity|]. split; reflexivity.
Qed.

(** C2, as the claim states it, does not hold of the code: what is kept
    among candidates of equal score is what [np.argsort] makes of equal
    scores. Where the sort leaves two equal scores in place, the mask kept
    is the second candidate, not the one occurring first; where it
    exchanges them, it is the first: no rule on the order of occurrence
    holds for every sort. *)
Lemma first_maximum_not_retained :
  retained Z.ltb Np.stable [(hole 10 10, 5%Z); (blob 10 10, 5%Z)] = Some (blob 10 10) /\
  retained Z.ltb Np.reversing [(hole 10 10, 5%Z); (blob 10 10, 5%Z)] = Some (hole 10 10) /\
  ~ (forall (tie : list Z -> nat -> nat -> bool) (candidates : list (mask * Z)) (m : mask),
       retained Z.ltb tie candidates = Some m ->
       exists k s,
         candidates !! k = Some (m, s) /\
         forall j m' s', candidates !! j = Some (m', s') ->
           (s' <= s)%Z /\ (s' = s -> (k <= j)%nat)).
Proof.
  split; [reflexivity|]. split; [reflexivity|].
  intros Hclaim.
  destruct (Hclaim Np.stable [(hole 10 10, 5%Z); (blob 10 10, 5%Z)] (blob 10 10) eq_refl)
    as (k & s & Hk & Hfirst).
  destruct k as [|[|k]]; simpl in Hk; try discriminate.
  injection Hk as <-.
  destruct (Hfirst 0%nat (hole 10 10) 5%Z eq_refl) as [_ Hle].
  specialize (Hle eq_refl). lia.
Qed.

Lemma retained_is_a_maximum_witness :
  [(hole 10 10, Some 5%Z); (blob 10 10, None); (blob 50 50, Some 9%Z)] <> [] /\
  exists k m s,
    retained np_lt Np.stable
      [(hole 10 10, Some 5%Z); (blob 10 10, None); (blob 50 50, Some 9%Z)] = Some m /\
    [(hole 10 10, Some 5%Z); (blob 10 10, None); (blob 50 50, Some 9%Z)] !! k = Some (m, s) /\
    (forall j m' s',
       [(hole 10 10, Some 5%Z); (blob 10 10, None); (blob 50 50, Some 9%Z)] !! j =
         Some (m', s') ->
       np_lt s s' = false).
Proof.
  split; [discriminate|].
  apply (retained_is_a_maximum np_lt Np.stable
           [(hole 10 10, Some 5%Z); (blob 10 10, None); (blob 50 50, Some 9%Z)]
           np_lt_asym np_lt_negtrans).
  discriminate.
Defined.

(** C3, on the code. For an annotation file without rows whose image
    exists, the frame read is empty; processing the file raises, nothing
    is written, neither a raster nor the table of zero rows, and the run
    ends there, the files that follow being left unprocessed. *)
Lemma empty_file_writes_no_table :
  images !! resolved annotations = Some 7%nat /\
  read_csv_empty annotations = Return [] /\
  (exists e,
     process_file Z.ltb Np.stable images read_csv_empty predict repr_other get_polygon
       save_image_masks annotations start = (Raise e, start)) /\
  written (process_file Z.ltb Np.stable images read_csv_empty predict repr_other get_polygon
             save_image_masks annotations start).2 = [] /\
  (exists e,
     run Z.ltb Np.stable images read_csv_empty predict repr_other get_polygon
       save_image_masks [annotations; second] start = (Raise e, start)).
Proof.
  split; [reflexivity|]. split; [reflexivity|].
  split; [by eexists|]. split; [reflexivity|]. by eexists.
Qed.

Lemma get_image_drops_last_token_witness :
  PyStr.contains "_" "points" = false /\
  image_name_of (PyStr.join "_" (["vid"; "05"; "0001"] ++ ["points"])) =
    PyStr.join "_" ["vid"; "05"; "0001"] /\
  get_image images (PyStr.join "_" (["vid"; "05"; "0001"] ++ ["points"])) image_dir =
    match images !! PyPath.joinpath image_dir (PyStr.join "_" ["vid"; "05"; "0001"] +:+ ".jpg") with
    | Some img =>
        (Some img,
         Some (PyPath.joinpath image_dir (PyStr.join "_" ["vid"; "05"; "0001"] +:+ ".jpg")))
    | None => (None, None)
    end /\
  image_name_of "S_T_U_SUFFIX" = "S_T_U".
Proof.
  split; [reflexivity|].
  apply (get_image_drops_last_token images ["vid"; "05"; "0001"] "points" image_dir).
  reflexivity.
Defined.

Lemma stem_without_underscore_witness :
  PyStr.contains "_" (PyPath.stem plain) = false /\
  images !! PyPath.joinpath image_dir ".jpg" = None /\
  (image_name_of (PyPath.stem plain) = EmptyString /\
   resolved plain = PyPath.joinpath image_dir ".jpg" /\
   get_image images (PyPath.stem plain) image_dir =
     match images !! PyPath.joinpath image_dir ".jpg" with
     | Some img => (Some img, Some (PyPath.joinpath image_dir ".jpg"))
     | None => (None, None)
     end /\
   (images !! PyPath.joinpath image_dir ".jpg" = None ->
    demo_process plain start = (Return tt, start) /\
    demo_run [plain; annotations] start = demo_run [annotations] start)).
Proof.
  split; [reflexivity|]. split; [reflexivity|].
  apply (stem_without_underscore Z.ltb Np.stable images read_csv predict repr_other get_polygon
           save_image_masks plain [annotations] start).
  reflexivity.
Defined.

Lemma missing_image_is_skipped_witness :
  images !! resolved orphan = None /\
  get_image images (PyPath.stem orphan) image_dir = (None, None) /\
  demo_process orphan start = (Return tt, start) /\
  demo_run [orphan; annotations] start = demo_run [annotations] start.
Proof.
  split; [reflexivity|].
  apply (missing_image_is_skipped Z.ltb Np.stable images read_csv predict repr_other get_polygon
           save_image_masks orphan [annotations] start).
  reflexivity.
Defined.

(** C9, as the claim states it, fails: the line [abc<TAB>10<TAB>a] makes
    no failure when the file is read. [read_csv] is given no [dtype]: the
    column [x] is read as text, the frame has its row, and the point is
    passed to the predictor as read, whatever predictor it is. A predictor
    that rejects the text ends the run with its own exception, after the
    prompt was issued; with one that answers, the file is processed to the
    end and the table written, the text in its prompt column. *)
Lemma non_numeric_point_is_read :
  images !! resolved malformed = Some 7%nat /\
  read_csv malformed = Return [text_row] /\
  x text_row = VText "abc" /\
  (forall predict' : nat -> list (value * value) -> list Z -> bool -> outcome (list (mask * Z)),
     exists more,
       issued (process_file Z.ltb Np.stable images read_csv predict' repr_other get_polygon
                 save_image_masks malformed start).2 =
       ([(VText "abc", VInt 10)], [1%Z], false) :: more) /\
  demo_process malformed start =
    (Raise "TypeError", mkState (Some text_row) [] [([(VText "abc", VInt 10)], [1%Z], false)]) /\
  exists st' table,
    process_file Z.ltb Np.stable images read_csv predict_any repr_other get_polygon
      save_image_masks malformed start = (Return tt, st') /\
    last (written st') =
      Some (PyPath.joinpath (save_dir_of malformed) "polygon_masks.csv",
            Csv result_columns table) /\
    map prompt table = ["['abc', 10]"].
Proof.
  split; [reflexivity|]. split; [reflexivity|]. split; [reflexivity|]. split.
  - intros predict'.
    exact (process_issues_first Z.ltb Np.stable images read_csv predict' repr_other
             get_polygon save_image_masks malformed 7%nat text_row [] start
             eq_refl eq_refl).
  - split; [reflexivity|].
    eexists _, _. split; [vm_compute; reflexivity|].
    split; [vm_compute; reflexivity|]. reflexivity.
Qed.

Lemma read_failure_propagates_witness :
  images !! resolved broken = Some 7%nat /\
  read_csv broken = Raise "ParserError" /\
  demo_process broken start = (Raise "ParserError", start) /\
  demo_run [broken; annotations] start = (Raise "ParserError", start).
Proof.
  split; [reflexivity|]. split; [reflexivity|].
  apply (read_failure_propagates Z.ltb Np.stable images read_csv predict repr_other get_polygon
           save_image_masks broken 7%nat [annotations] start); reflexivity.
Defined.

Lemma mask_raster_file_witness :
  images !! resolved annotations = Some 7%nat /\
  read_csv annotations = Return rows /\
  rows !! 1%nat = Some (mkAnnotation 50 50 "b" EObject) /\
  PyStr.fmt03 (1 + 1) = "002" /\
  exists st' c m,
    demo_process annotations start = (Return tt, st') /\
    predict 7%nat [(VInt 50, VInt 50)] [1%Z] false = Return c /\
    retained Z.ltb Np.stable c = Some m /\
    (PyPath.joinpath (PyPath.joinpath results_dir (PyPath.stem (resolved annotations)))
       (PyStr.fmt03 (1 + 1) +:+ ".png"),
     Png (map (map (fun b : bool => if b then 255%Z else 0%Z)) m)) ∈ written st' /\
    Forall (Forall (fun v => v = 0%Z \/ v = 255%Z))
      (map (map (fun b : bool => if b then 255%Z else 0%Z)) m) /\
    (image_name_of (PyPath.stem annotations) <> EmptyString ->
     PyPath.stem (resolved annotations) = image_name_of (PyPath.stem annotations)) /\
    (3 <= String.length (PyStr.fmt03 (1 + 1)))%nat /\
    option_map Nat.of_uint (NilEmpty.uint_of_string (PyStr.fmt03 (1 + 1))) = Some (1 + 1)%nat /\
    ((1 + 1 < 1000)%nat -> PyStr.fmt03 (1 + 1) = three_digits (1 + 1)) /\
    ((1000 <= 1 + 1)%nat ->
     PyStr.fmt03 (1 + 1) = NilEmpty.string_of_uint (Nat.to_uint (1 + 1))).
Proof.
  split; [reflexivity|]. split; [reflexivity|]. split; [reflexivity|].
  split; [reflexivity|].
  apply (mask_raster_file Z.ltb Np.stable images read_csv predict repr_other get_polygon
           save_image_masks annotations 7%nat rows start 1%nat (mkAnnotation 50 50 "b" EObject)).
  - reflexivity.
  - reflexivity.
  - exact demo_answers.
  - reflexivity.
Defined.

Lemma demo_relabelled (file : PyPath.Path) : same_points (read_csv file) (read_csv' file).
Proof.
  unfold read_csv, read_csv'. destruct (decide (file = broken)); simpl; [reflexivity|].
  destruct (decide (file = malformed)); simpl; repeat constructor.
Defined.


(** The prompt column is where the label column shows: without labels the
    rows are of type [float64], and the text of the same points reads
    otherwise. *)
Lemma prompt_text_follows_row_type :
  Forall2 same_point rows relabelled /\
  map (row_text repr_other) rows = ["[10, 10]"; "[50, 50]"] /\
  map (row_text repr_other) relabelled =
    ["[np.float64(10.0), np.float64(10.0)]"; "[np.float64(50.0), np.float64(50.0)]"].
Proof. split; [repeat constructor|]. split; reflexivity. Qed.

End OnDemo.


(** * Further properties of the code *)

(** ** The reordering by score *)

Section IndexFacts.
Context {A : Type} (ltb : A -> A -> bool).

Lemma fold_shift_lookup ch (a : list A) :
  Forall (fun e => a !! e.1 = Some e.2)
    (fold_left (fun p e => Np.shift ltb ch e p) (Np.enumerate_from 0 a) []).
Proof.
  apply Forall_forall. intros [k s] Hin.
  rewrite fold_shift_perm, app_nil_r in Hin.
  apply elem_enumerate_from in Hin as [_ Hk]. by rewrite Nat.sub_0_r in Hk.
Qed.

Lemma reversed_argsort_fold tie (a : list A) :
  Np.reversed (Np.argsort ltb tie a) =
  map fst (fold_left (fun p e => Np.shift ltb (tie a) e p) (Np.enumerate_from 0 a) []).
Proof. unfold Np.reversed, Np.argsort. apply rev_involutive. Qed.

Lemma take_indices_entries {B} (a : list B) (l : list (nat * B)) :
  Forall (fun e => a !! e.1 = Some e.2) l ->
  Np.take_indices a (map fst l) = map snd l.
Proof.
  unfold Np.take_indices. induction 1 as [|e l He _ IH]; simpl; [reflexivity|].
  rewrite He. simpl. f_equal. exact IH.
Qed.

Lemma take_indices_all {B} (c : list B) :
  Np.take_indices c (seq 0 (length c)) = c.
Proof.
  unfold Np.take_indices.
  assert (Hgen : forall pre, omap (fun i => (pre ++ c) !! i) (seq (length pre) (length c)) = c).
  { induction c as [|v c IH]; intros pre; simpl; [reflexivity|].
    rewrite list_lookup_middle by reflexivity. simpl. f_equal.
    replace (pre ++ v :: c) with ((pre ++ [v]) ++ c) by (by rewrite <- app_assoc).
    replace (S (length pre)) with (length (pre ++ [v])) by (rewrite length_app; simpl; lia).
    apply IH. }
  apply (Hgen []).
Qed.

Lemma take_indices_zip {B C} (l : list (B * C)) ind :
  zip (Np.take_indices (map fst l) ind) (Np.take_indices (map snd l) ind) =
  Np.take_indices l ind.
Proof.
  unfold Np.take_indices. induction ind as [|i ind IH]; simpl; [reflexivity|].
  rewrite !list_lookup_fmap. destruct (l !! i) as [[b c]|]; simpl; [f_equal|]; exact IH.
Qed.

End IndexFacts.

Lemma StronglySorted_map_elem {B C} (R : B -> B -> Prop) (R' : C -> C -> Prop)
    (f : B -> C) (l : list B) :
  (forall a b, a ∈ l -> b ∈ l -> R a b -> R' (f a) (f b)) ->
  StronglySorted R l -> StronglySorted R' (map f l).
Proof.
  intros Hf Hsorted. induction Hsorted as [|a l Hl IH Ha]; simpl; constructor.
  - apply IH. intros b c Hb Hc. apply Hf; by apply list_elem_of_further.
  - apply Forall_forall. intros c Hc.
    apply list_elem_of_In, in_map_iff in Hc as (b & <- & Hb). apply list_elem_of_In in Hb.
    rewrite Forall_forall in Ha.
    apply Hf; [apply list_elem_of_here|by apply list_elem_of_further|by apply Ha].
Qed.

Section SortOrders.
Context {A : Type} (ltb : A -> A -> bool).

Lemma position_app i pre q :
  i ∉ pre -> position i (pre ++ q) = (length pre + position i q)%nat.
Proof.
  induction pre as [|h pre IH]; intros Hi; simpl; [reflexivity|].
  apply not_elem_of_cons in Hi as [Hne Hi].
  destruct (Nat.eqb_spec i h); [congruence|]. by rewrite IH.
Qed.

Lemma position_inj p i j :
  i ∈ p -> j ∈ p -> position i p = position j p -> i = j.
Proof.
  induction p as [|h p IH]; intros Hi Hj; simpl; [by apply elem_of_nil in Hi|].
  destruct (Nat.eqb_spec i h), (Nat.eqb_spec j h); try congruence; try discriminate.
  intros [= H]. apply elem_of_cons in Hi as [?|Hi]; [congruence|].
  apply elem_of_cons in Hj as [?|Hj]; [congruence|]. by apply IH.
Qed.

Lemma sorted_position (R : nat -> nat -> Prop) p i j :
  StronglySorted R p -> i ∈ p -> j ∈ p ->
  (position i p < position j p)%nat -> R i j.
Proof.
  induction 1 as [|h p Hp IH Hh]; intros Hi Hj; simpl; [by apply elem_of_nil in Hi|].
  rewrite Forall_forall in Hh.
  destruct (Nat.eqb_spec i h) as [->|Hih], (Nat.eqb_spec j h) as [->|Hjh]; intros Hlt; try lia.
  - apply Hh. apply elem_of_cons in Hj as [?|Hj]; [congruence|exact Hj].
  - apply elem_of_cons in Hi as [?|Hi]; [congruence|].
    apply elem_of_cons in Hj as [?|Hj]; [congruence|].
    apply IH; [exact Hi|exact Hj|lia].
Qed.

Lemma position_sorted pre q :
  NoDup (pre ++ q) ->
  StronglySorted (fun i j => (position i (pre ++ q) < position j (pre ++ q))%nat) q.
Proof.
  revert pre. induction q as [|h q IH]; intros pre Hnd; [constructor|].
  apply NoDup_app in Hnd as (Hpre & Hdisj & Hq).
  apply NoDup_cons in Hq as [Hh Hq].
  assert (Hhpre : h ∉ pre).
  { intros Hin. apply (Hdisj h Hin), list_elem_of_here. }
  constructor.
  - specialize (IH (pre ++ [h])). rewrite <- app_assoc in IH. apply IH.
    simpl. apply NoDup_app. split; [exact Hpre|].
    split; [exact Hdisj|]. by apply NoDup_cons.
  - apply Forall_forall. intros j Hj.
    assert (Hjpre : j ∉ pre).
    { intros Hin. apply (Hdisj j Hin). by apply list_elem_of_further. }
    rewrite !position_app by assumption. simpl. rewrite Nat.eqb_refl.
    destruct (Nat.eqb_spec j h) as [->|_]; [contradiction|lia].
Qed.

Lemma StronglySorted_rev {B} (R : B -> B -> Prop) l :
  StronglySorted R l -> StronglySorted (flip R) (rev l).
Proof.
  induction 1 as [|b l Hl IH Hb]; simpl; [constructor|].
  apply StronglySorted_app_2; [|exact IH|repeat constructor].
  intros x1 x2 Hx1 Hx2. apply list_elem_of_singleton in Hx2 as ->.
  rewrite Forall_forall in Hb. apply Hb.
  apply list_elem_of_In. apply in_rev. by apply list_elem_of_In.
Qed.

(** An arrangement [p] of the indices of [a] in ascending order. *)
Variable a : list A.
Variable p : list nat.
Hypothesis p_sorted : StronglySorted (ascending ltb a) p.

Local Abbreviation valid := (fun e : nat * A => e.1 ∈ p /\ a !! e.1 = Some e.2).
Local Abbreviation later :=
  (fun e1 e2 : nat * A => (position e2.1 p < position e1.1 p)%nat).

Lemma shift_test (x y : nat * A) :
  valid x -> valid y -> x.1 <> y.1 ->
  (ltb x.2 y.2 || negb (ltb y.2 x.2) && choice_of p a x.1 y.1) = choice_of p a x.1 y.1.
Proof.
  intros [Hx Hxa] [Hy Hya] Hne. unfold choice_of.
  destruct (Nat.ltb_spec (position x.1 p) (position y.1 p)) as [Hlt|Hge].
  - rewrite (sorted_position _ p x.1 y.1 p_sorted Hx Hy Hlt _ _ Hxa Hya).
    simpl. apply orb_true_r.
  - assert (Hlt : (position y.1 p < position x.1 p)%nat).
    { destruct (decide (position x.1 p = position y.1 p)) as [E|E]; [|lia].
      by apply position_inj in E. }
    rewrite (sorted_position _ p y.1 x.1 p_sorted Hy Hx Hlt _ _ Hya Hxa).
    simpl. apply andb_false_r.
Qed.

Lemma shift_follows (x : nat * A) L :
  valid x -> Forall valid L -> x.1 ∉ map fst L ->
  StronglySorted later L ->
  StronglySorted later (Np.shift ltb (choice_of p a) x L).
Proof.
  intros Hx. induction L as [|y L IH]; intros HL Hnin Hsorted; simpl.
  - repeat constructor.
  - apply Forall_cons in HL as [Hy HL]. simpl in Hnin.
    apply not_elem_of_cons in Hnin as [Hne Hnin].
    apply StronglySorted_inv in Hsorted as [HsL Hall].
    rewrite (shift_test x y Hx Hy Hne). unfold choice_of.
    destruct (Nat.ltb_spec (position x.1 p) (position y.1 p)) as [Hlt|Hge].
    + constructor; [by apply IH|].
      rewrite shift_perm. by constructor.
    + assert (Hlt : (position y.1 p < position x.1 p)%nat).
      { destruct (decide (position x.1 p = position y.1 p)) as [E|E]; [|lia].
        apply position_inj in E; [contradiction|apply Hx|apply Hy]. }
      constructor; [by constructor|]. constructor; [exact Hlt|].
      apply Forall_forall. intros d Hd. rewrite Forall_forall in Hall.
      specialize (Hall d Hd). simpl in *. lia.
Qed.

Lemma fold_shift_follows items :
  forall L,
    Forall valid (items ++ L) -> NoDup (map fst (items ++ L)) ->
    StronglySorted later L ->
    StronglySorted later (fold_left (fun q e => Np.shift ltb (choice_of p a) e q) items L).
Proof.
  induction items as [|x items IH]; intros L Hv Hnd Hsorted; simpl; [exact Hsorted|].
  simpl in Hv, Hnd. apply Forall_cons in Hv as [Hx Hv]. apply NoDup_cons in Hnd as [Hnin Hnd].
  rewrite map_app in Hnin, Hnd.
  apply IH.
  - rewrite shift_perm. apply Forall_app in Hv as [Hi HL].
    apply Forall_app. split; [exact Hi|]. by constructor.
  - rewrite map_app, shift_perm. simpl.
    rewrite <- Permutation_middle. apply NoDup_cons. by split.
  - apply shift_follows; [exact Hx|by apply Forall_app in Hv as [_ ?]| |exact Hsorted].
    intros Hin. apply Hnin, elem_of_app. by right.
Qed.

(** Every ascending arrangement of the indices is what [np.argsort]
    returns for the choice among equal values that it shows. *)
Lemma argsort_reaches (Hperm : p ≡ₚ seq 0 (length a)) :
  Np.argsort ltb (choice_of p) a = p.
Proof.
  unfold Np.argsort.
  set (L := fold_left _ _ _).
  assert (HL : L ≡ₚ Np.enumerate_from 0 a).
  { unfold L. rewrite fold_shift_perm. by rewrite app_nil_r. }
  assert (Hsorted : StronglySorted later L).
  { apply fold_shift_follows; rewrite ?app_nil_r.
    - apply Forall_forall. intros [k v] Hin.
      apply elem_enumerate_from in Hin as [_ Hk]. rewrite Nat.sub_0_r in Hk.
      split; [|exact Hk]. simpl. rewrite Hperm. apply elem_of_seq.
      apply lookup_lt_Some in Hk. lia.
    - rewrite fst_enumerate_from. apply NoDup_seq.
    - constructor. }
  apply (StronglySorted_unique_strong (fun i j => (position i p < position j p)%nat)).
  - intros; lia.
  - apply (StronglySorted_rev (fun i j => (position j p < position i p)%nat)).
    apply (StronglySorted_map_elem later); [|exact Hsorted]. by intros.
  - apply (position_sorted [] p). simpl. rewrite Hperm. apply NoDup_seq.
  - rewrite <- Permutation_rev, Hperm, <- (fst_enumerate_from a 0).
    by apply Permutation_map.
Qed.

End SortOrders.

Section SortProperties.
Context {score : Type} (score_ltb : score -> score -> bool).
Variable tie : list score -> nat -> nat -> bool.

(** X1. The reordering after [predictor.predict] keeps the candidates:
    the reordered masks paired with the reordered scores are a
    rearrangement of the candidates returned, none dropped, none repeated,
    each mask still with its own score. *)
Theorem sort_by_score_rearranges (candidates : list (mask * score)) :
  zip (sort_by_score score_ltb tie candidates).1 (sort_by_score score_ltb tie candidates).2
    ≡ₚ candidates.
Proof.
  unfold sort_by_score. simpl. rewrite take_indices_zip.
  unfold Np.take_indices, Np.reversed.
  rewrite <- Permutation_rev, argsort_perm, length_map.
  by rewrite <- (take_indices_all candidates) at 2.
Qed.

(** X18. The mask kept for a prompt is never made up: it is the mask of
    one of the candidates returned, and no mask is kept exactly when the
    predictor returned no candidate; this needs nothing of the order of
    the scores. *)
Theorem retained_is_a_candidate (candidates : list (mask * score)) :
  (retained score_ltb tie candidates = None <-> candidates = []) /\
  (forall m, retained score_ltb tie candidates = Some m -> exists s, (m, s) ∈ candidates).
Proof.
  pose proof (sort_by_score_length score_ltb tie candidates) as [Hl1 Hl2].
  pose proof (sort_by_score_rearranges candidates) as Hperm.
  unfold retained.
  destruct (sort_by_score score_ltb tie candidates) as [l1 l2]. simpl in *.
  split.
  - split.
    + intros Hnone. destruct l1; [|discriminate].
      destruct candidates; [reflexivity|discriminate].
    + intros ->. by destruct l1.
  - intros m Hm. destruct l1 as [|m0 l1]; [discriminate|]. injection Hm as ->.
    destruct l2 as [|s l2]; [simpl in *; congruence|].
    exists s. rewrite <- Hperm. apply list_elem_of_here.
Qed.

Hypothesis ltb_asym : forall a b, score_ltb a b = true -> score_ltb b a = false.
Hypothesis ltb_negtrans :
  forall a b c, score_ltb a b = false -> score_ltb b c = false -> score_ltb a c = false.

Lemma fold_sorted (scores : list score) :
  StronglySorted (score_before score_ltb)
    (fold_left (fun p e => Np.shift score_ltb (tie scores) e p) (Np.enumerate_from 0 scores) []).
Proof.
  apply (fold_shift_sorted score_ltb ltb_asym ltb_negtrans). constructor.
Qed.

(** X2. The reordered scores are in descending order: no score is below a
    score that comes after it. *)
Theorem reordered_scores_descend (candidates : list (mask * score)) :
  StronglySorted (fun s s' => score_ltb s s' = false)
    (sort_by_score score_ltb tie candidates).2.
Proof.
  unfold sort_by_score. simpl.
  rewrite reversed_argsort_fold, (take_indices_entries _ _ (fold_shift_lookup _ _ _)).
  apply (StronglySorted_map_elem (score_before score_ltb)); [|apply fold_sorted].
  by intros a b _ _ H.
Qed.

(** [np.argsort] returns the indices in ascending order of the values,
    whatever it does with equal values. *)
Lemma argsort_ascending (scores : list score) :
  StronglySorted (ascending score_ltb scores) (Np.argsort score_ltb tie scores).
Proof.
  unfold Np.argsort.
  apply (StronglySorted_rev (fun i j => ascending score_ltb scores j i)).
  apply (StronglySorted_map_elem (score_before score_ltb)); [|apply fold_sorted].
  intros e1 e2 H1 H2 Hb u v Hu Hv.
  pose proof (fold_shift_lookup score_ltb (tie scores) scores) as Hall.
  rewrite Forall_forall in Hall.
  rewrite (Hall e2 H2) in Hu. rewrite (Hall e1 H1) in Hv.
  injection Hu as <-. injection Hv as <-. exact Hb.
Qed.

End SortProperties.

Section SortModel.
Context {score : Type} (score_ltb : score -> score -> bool).
Hypothesis ltb_asym : forall a b, score_ltb a b = true -> score_ltb b a = false.
Hypothesis ltb_negtrans :
  forall a b c, score_ltb a b = false -> score_ltb b c = false -> score_ltb a c = false.


End SortModel.

(** ** Names, numbers and rasters *)

Section TextProperties.
Import PyStr.

(** The stem of [<name>.<ext>] is [<name>], for a name that is not empty
    and an extension without a dot. *)
Lemma stem_of_ext n ext :
  n <> EmptyString -> ext <> EmptyString -> contains "." ext = false ->
  PyPath.stem_of_name (n +:+ String "." ext) = n.
Proof.
  intros Hn Hext Hdot. unfold PyPath.stem_of_name.
  rewrite (rfind_last _ _ _ Hdot), length_append. simpl.
  destruct n as [|a n]; [congruence|]. destruct ext as [|b ext]; [congruence|].
  replace (0 <? String.length (String a n))%nat with true
    by (symmetry; apply Nat.ltb_lt; simpl; lia).
  replace (String.length (String a n) <?
           String.length (String a n) + S (String.length (String b ext)) - 1)%nat with true
    by (symmetry; apply Nat.ltb_lt; simpl; lia).
  simpl andb. cbv iota. apply prefix_app.
Qed.

(** X4. The text of a mask id, [f"{mask_id:03d}"], has at least three
    characters and reads back as the ordinal, whatever its size: the
    format pads and never truncates, so different ordinals never give the
    same file name or id. *)
Theorem mask_id_reads_back (n : nat) :
  (3 <= String.length (fmt03 n))%nat /\
  option_map Nat.of_uint (NilEmpty.uint_of_string (fmt03 n)) = Some n.
Proof.
  split; [|apply fmt03_read].
  unfold fmt03. rewrite length_append, length_zeros. lia.
Qed.

(** X5. [str] of a list of integers is lossless: two lists with the same
    text are the same list, so the prompt cell determines the point
    written and the polygon cell the coordinates. *)
Theorem str_list_injective (l l' : list Z) :
  str_list l = str_list l' -> l = l'.
Proof.
  intros H. pose proof (parse_list_str_list l) as Hl.
  rewrite H, parse_list_str_list in Hl. congruence.
Qed.

(** X6. The raster written for a mask has the mask's shape and loses
    nothing: taking the pixels equal to 255 gives the mask back. *)
Theorem raster_keeps_the_mask (m : mask) :
  raster_to_mask (mask_to_uint8 m) = m /\
  length (mask_to_uint8 m) = length m /\
  map length (mask_to_uint8 m) = map length m.
Proof.
  unfold raster_to_mask, mask_to_uint8. rewrite !map_map. split; [|split].
  - rewrite <- (map_id m) at 2. apply map_ext. intros l.
    rewrite map_map. rewrite <- (map_id l) at 2. apply map_ext. by intros [|].
  - apply length_map.
  - apply map_ext. intros l. apply length_map.
Qed.

(** X7. From the name of an annotation file to its image and its results:
    for a file named [<p>_<s>.txt], with [<p>] not empty and [<s>] free of
    underscores, in any directory, the stem is [<p>_<s>], the image looked
    for is [<p>.jpg] in the image directory and the results go to the
    directory [<p>] under the results directory. *)
Theorem annotation_file_resolution (dir : PyPath.Path) (p s : string) :
  p <> EmptyString ->
  contains "_" s = false ->
  let file := PyPath.joinpath dir ((p +:+ "_" +:+ s) +:+ ".txt") in
  PyPath.stem file = p +:+ "_" +:+ s /\
  resolved file = PyPath.joinpath image_dir (p +:+ ".jpg") /\
  save_dir_of file = PyPath.joinpath results_dir p.
Proof.
  intros Hp Hs file.
  assert (Hstem : PyPath.stem file = p +:+ "_" +:+ s).
  { unfold PyPath.stem, file. rewrite name_joinpath.
    apply (stem_of_ext _ "txt"); [|discriminate|reflexivity].
    destruct p; [congruence|discriminate]. }
  assert (Hres : resolved file = PyPath.joinpath image_dir (p +:+ ".jpg")).
  { unfold resolved. rewrite Hstem, image_name_of_suffixed; [reflexivity|exact Hs]. }
  split; [exact Hstem|]. split; [exact Hres|].
  unfold save_dir_of. rewrite Hres. unfold PyPath.stem. rewrite name_joinpath.
  by rewrite stem_of_jpg.
Qed.

(** X19. Every stem that has an underscore is its image name, an
    underscore and a last token free of underscores: the image name is the
    stem cut at its last underscore, nothing else of the stem is lost. *)
Theorem stem_is_image_name_and_last_token (stem : string) :
  contains "_" stem = true ->
  exists last,
    contains "_" last = false /\
    stem = image_name_of stem +:+ "_" +:+ last.
Proof.
  intros Hs. destruct (image_name_of_with_underscore stem Hs) as (p & t & Heq & Ht & Hp).
  exists t. split; [exact Ht|]. by rewrite Hp.
Qed.

(** X8. When the image name derived from an annotation file is empty (a
    stem without underscore, or one that starts with its only underscore),
    the image looked for is the file [.jpg], whose stem is [.jpg] itself:
    the results of such a file go to the directory [.jpg] under the
    results directory, not to the results directory. *)
Theorem empty_image_name_results_dir (file : PyPath.Path) :
  image_name_of (PyPath.stem file) = EmptyString ->
  resolved file = PyPath.joinpath image_dir ".jpg" /\
  save_dir_of file = PyPath.joinpath results_dir ".jpg".
Proof.
  intros Hname.
  assert (Hres : resolved file = PyPath.joinpath image_dir ".jpg").
  { unfold resolved. by rewrite Hname. }
  split; [exact Hres|]. unfold save_dir_of. by rewrite Hres.
Qed.

(** X22. For a row of a frame with text labels and whole coordinates, a
    row of type [object] holding Python integers, the text of the prompt
    cell is [str] of the list of the two integers, as in [[50, 50]]: it
    does not depend on how numpy prints its scalars. *)
Theorem prompt_text_of_integers (repr_other : elem_type -> value -> string)
    (r : AnnotationRecord) (a b : Z) :
  dtype r = EObject -> x r = VInt a -> y r = VInt b ->
  row_text repr_other r = str_list [a; b] /\
  row_text repr_other r = "[" +:+ str_int a +:+ ", " +:+ str_int b +:+ "]".
Proof.
  intros Hd Hx Hy.
  assert (E : row_text repr_other r = str_list [a; b]).
  { unfold row_text, elem_text. rewrite Hd, Hx, Hy. unfold str_list, join. simpl.
    by rewrite !append_assoc. }
  split; [exact E|].
  unfold row_text, elem_text. by rewrite Hd, Hx, Hy.
Qed.

End TextProperties.

(** ** Failures and composition of the run *)

Section RunProperties.
Context {image : Type} {score : Type} (score_ltb : score -> score -> bool).
Variable tie : list score -> nat -> nat -> bool.
Variable images : gmap PyPath.Path image.
Variable read_csv : PyPath.Path -> outcome (list AnnotationRecord).
Variable predict :
  image -> list (value * value) -> list Z -> bool -> outcome (list (mask * score)).
Variable repr_other : elem_type -> value -> string.
Variable get_polygon : raster -> list (Z * Z).
Variable save_image_masks :
  list (list mask) -> string -> PyPath.Path -> list (PyPath.Path * content).

Local Abbreviation process :=
  (process_file score_ltb tie images read_csv predict repr_other get_polygon save_image_masks).
Local Abbreviation running :=
  (run score_ltb tie images read_csv predict repr_other get_polygon save_image_masks).

Lemma run_cons file rest st :
  running (file :: rest) st =
  match process file st with
  | (Return _, s) => running rest s
  | (Raise e, s) => (Raise e, s)
  end.
Proof. reflexivity. Qed.

(** The prediction loop, when the predictor raises on a row. *)
Lemma predict_loop_raise img rows1 cs1 r rows2 e :
  Forall2 (fun r c => predict img [(x r, y r)] [1%Z] false = Return c) rows1 cs1 ->
  predict img [(x r, y r)] [1%Z] false = Raise e ->
  forall acc st,
    predict_loop score_ltb tie predict img (rows1 ++ r :: rows2) acc st =
    (Raise e,
     mkState (Some r) (written st) (issued st ++ map prompt_of (rows1 ++ [r]))).
Proof.
  intros Hcs He. induction Hcs as [|r1 c rows1 cs1 Hr _ IH]; intros acc st; simpl.
  - unfold bind at 1. simpl. unfold bind at 1, ask, ones1. simpl. by rewrite He.
  - unfold bind at 1. simpl. unfold bind at 1, ask, ones1. simpl. rewrite Hr.
    destruct (sort_by_score score_ltb tie c) as [masks scores], acc as [[ap am] asc].
    rewrite IH. simpl. by rewrite <- !app_assoc.
Qed.

(** X9. In the writing loop, an entry of [all_masks] without any mask
    ([mask[0]] out of range) raises [IndexError]: the rasters of the
    entries before it have been written, nothing further is, and the rows
    gathered for the table are lost with the exception. *)
Theorem write_loop_stops_at_empty_entry (save_dir : PyPath.Path) (nm : string)
    (r : AnnotationRecord) (before : list (list mask)) (ms : list mask)
    (after : list (list mask)) (i : nat) (df : list PolygonRecord) (st : state) :
  Forall2 (fun masks m => head masks = Some m) before ms ->
  row st = Some r ->
  write_loop repr_other get_polygon save_dir nm i (before ++ [] :: after) df st =
  (Raise "IndexError",
   mkState (Some r) (written st ++ imap (fun k => png_of save_dir (i + k)) ms) (issued st)).
Proof.
  intros Hms. revert i df st.
  induction Hms as [|masks m before ms Hm _ IH]; intros i df st Hrow; simpl.
  - unfold bind, raise. rewrite app_nil_r. destruct st; simpl in *. by subst.
  - destruct masks as [|m0 masks]; [discriminate|]. injection Hm as ->.
    unfold bind at 1. simpl. unfold bind at 1, write_file. simpl.
    unfold bind at 1, read_row. simpl. rewrite Hrow.
    rewrite IH by reflexivity. simpl. rewrite <- !app_assoc. simpl.
    unfold png_of at 2. rewrite Nat.add_0_r.
    assert (E : imap (fun k => png_of save_dir (S (i + k))) ms =
                imap ((fun k => png_of save_dir (i + k)) ∘ S) ms)
      by (apply imap_ext; intros k ? _; simpl; by rewrite Nat.add_succ_r).
    by rewrite E.
Qed.

(** X10. When the predictor raises on a row, after answering the rows
    before it, the exception ends the processing of the file and the run:
    nothing has been written for the file, and the prompts issued are
    those of the rows up to and including the failing one. *)
Theorem predictor_failure_writes_nothing (file : PyPath.Path) (img : image)
    (rows1 : list AnnotationRecord) (r : AnnotationRecord) (rows2 : list AnnotationRecord)
    (e : exn) (rest : list PyPath.Path) (st : state) :
  images !! resolved file = Some img ->
  read_csv file = Return (rows1 ++ r :: rows2) ->
  (forall r', r' ∈ rows1 -> exists c, predict img [(x r', y r')] [1%Z] false = Return c) ->
  predict img [(x r, y r)] [1%Z] false = Raise e ->
  process file st =
    (Raise e, mkState (Some r) (written st) (issued st ++ map prompt_of (rows1 ++ [r]))) /\
  running (file :: rest) st =
    (Raise e, mkState (Some r) (written st) (issued st ++ map prompt_of (rows1 ++ [r]))).
Proof.
  intros Himg Hread Hall He.
  destruct (answers_exist predict img rows1 Hall) as (cs1 & Hcs1).
  assert (Hp : process file st =
    (Raise e, mkState (Some r) (written st) (issued st ++ map prompt_of (rows1 ++ [r])))).
  { unfold process_file. rewrite (get_image_found _ _ _ Himg), bind_call, Hread.
    unfold bind at 1. by rewrite (predict_loop_raise img rows1 cs1 r rows2 e Hcs1 He). }
  split; [exact Hp|]. by rewrite run_cons, Hp.
Qed.

(** X11. A frame without rows is not processed to the end: the file ends
    with an exception before any prompt is issued or any file written, and
    the run ends there. *)
Theorem empty_frame_ends_the_run (file : PyPath.Path) (img : image)
    (rest : list PyPath.Path) (st : state) :
  images !! resolved file = Some img ->
  read_csv file = Return [] ->
  exists e, process file st = (Raise e, st) /\ running (file :: rest) st = (Raise e, st).
Proof.
  intros Himg Hread. exists "ValueError".
  pose proof (empty_frame_raises score_ltb tie images read_csv predict repr_other get_polygon
                save_image_masks file img st Himg Hread) as Hp.
  split; [exact Hp|]. by rewrite run_cons, Hp.
Qed.

(** X13. Annotation files whose image is missing change nothing: the run
    over a list of files is the run over the files of the list that have
    their image, in the same order. *)
Theorem run_skips_files_without_image (files : list PyPath.Path) (st : state) :
  running files st = running (List.filter (has_image images) files) st.
Proof.
  revert st. induction files as [|file files IH]; intros st; [reflexivity|].
  simpl List.filter. unfold has_image at 1.
  destruct (images !! resolved file) as [img|] eqn:Himg.
  - rewrite bool_decide_eq_true_2 by eauto.
    rewrite !run_cons. destruct (process file st) as [[[]|e] s]; [apply IH|reflexivity].
  - rewrite bool_decide_eq_false_2 by (intros [? ?]; discriminate).
    rewrite run_cons. unfold process_file at 1.
    rewrite (get_image_missing _ _ Himg). apply IH.
Qed.

(** X15. For a file processed to the end, every row of the table written
    has in its prompt column the text of the last annotation row of that
    file, [str([row["x"], row["y"]])] for that row with its element type,
    whatever [row] held before; the table is the last file written and
    [row] is left bound to that last row. *)
Theorem prompt_column_is_last_point (file : PyPath.Path) (img : image)
    (rows : list AnnotationRecord) (r_last : AnnotationRecord) (st : state) :
  images !! resolved file = Some img ->
  read_csv file = Return rows ->
  last rows = Some r_last ->
  (forall r, r ∈ rows ->
     exists c, predict img [(x r, y r)] [1%Z] false = Return c /\ c <> []) ->
  exists st' table,
    process file st = (Return tt, st') /\
    last (written st') =
      Some (PyPath.joinpath (save_dir_of file) "polygon_masks.csv",
            Csv result_columns table) /\
    length table = length rows /\
    Forall (fun rec => prompt rec = row_text repr_other r_last) table /\
    row st' = Some r_last.
Proof.
  intros Himg Hread Hlast Hall.
  destruct (predictions_exist score_ltb tie predict img rows Hall) as (cs & ms & Hcs & Hms).
  eexists _, _.
  split; [exact (process_file_ok _ _ _ _ _ _ _ _ _ _ _ _ cs ms st Himg Hread Hlast Hcs Hms)|].
  simpl. split; [by rewrite !app_assoc, last_snoc|].
  split.
  - rewrite length_imap, <- (Forall2_length _ _ _ Hms). symmetry.
    apply (Forall2_length _ _ _ Hcs).
  - split; [|reflexivity]. apply Forall_forall. intros rec Hrec.
    apply list_elem_of_lookup in Hrec as [k Hk]. rewrite list_lookup_imap in Hk.
    destruct (ms !! k); simpl in Hk; [|discriminate]. by injection Hk as <-.
Qed.

(** X16. Whenever the predictor answers every row of a file (with
    candidates or without), exactly one prompt has been issued per
    annotation row, in file order, each the row's own point with the label
    [1]; whether the writing that follows succeeds or raises does not
    change the prompts issued. *)
Theorem one_prompt_per_row (file : PyPath.Path) (img : image)
    (rows : list AnnotationRecord) (st : state) :
  images !! resolved file = Some img ->
  read_csv file = Return rows ->
  (forall r, r ∈ rows -> exists c, predict img [(x r, y r)] [1%Z] false = Return c) ->
  issued (process file st).2 = issued st ++ map prompt_of rows.
Proof.
  apply process_issued.
Qed.

(** X20. For an annotation file with N rows, N at least 1, whose image
    resolves and whose every point is answered with at least one
    candidate, processing returns; the
    notebook writes, after the files of [save_image_masks], exactly N
    raster files and then one table of N rows; the i-th raster (from 1) is
    named by [i] formatted to three digits with [.png], no two rasters
    share a name, and it holds the mask kept for the i-th annotation row;
    the i-th table row has that [mask_id] and the polygon of that mask.
    Below 1000 the formatted number is exactly three digits. *)
Theorem one_mask_and_one_row_per_point (file : PyPath.Path) (img : image)
    (rows : list AnnotationRecord) (st : state) :
  images !! resolved file = Some img ->
  read_csv file = Return rows ->
  rows <> [] ->
  (forall r, r ∈ rows ->
     exists c, predict img [(x r, y r)] [1%Z] false = Return c /\ c <> []) ->
  exists st' all_masks pngs table,
    process file st = (Return tt, st') /\
    written st' =
      written st ++
      save_image_masks all_masks (PyPath.stem (resolved file)) results_dir ++
      pngs ++
      [(PyPath.joinpath (save_dir_of file) "polygon_masks.csv", Csv result_columns table)] /\
    length pngs = length rows /\
    length table = length rows /\
    NoDup pngs.*1 /\
    (forall i r, rows !! i = Some r ->
       exists c m,
         predict img [(x r, y r)] [1%Z] false = Return c /\
         retained score_ltb tie c = Some m /\
         pngs !! i =
           Some (PyPath.joinpath (save_dir_of file) (PyStr.fmt03 (i + 1) +:+ ".png"),
                 Png (mask_to_uint8 m)) /\
         mask_id <$> table !! i = Some (PyStr.fmt03 (i + 1)) /\
         polygon <$> table !! i =
           Some (PyStr.str_list (ravel (get_polygon (mask_to_uint8 m))))) /\
    (forall i, (i < 1000)%nat -> PyStr.fmt03 i = three_digits i).
Proof.
  intros Himg Hread Hne Hall.
  destruct (predictions_exist score_ltb tie predict img rows Hall) as (cs & ms & Hcs & Hms).
  destruct (last rows) as [r_last|] eqn:Hlast;
    [|apply last_None in Hlast; congruence].
  pose proof (Forall2_length _ _ _ Hcs) as Hlen1.
  pose proof (Forall2_length _ _ _ Hms) as Hlen2.
  eexists _, _, (imap (png_of (save_dir_of file)) ms), _.
  split; [exact (process_file_ok _ _ _ _ _ _ _ _ _ _ _ _ cs ms st Himg Hread Hlast Hcs Hms)|].
  split; [reflexivity|].
  split; [rewrite length_imap; lia|].
  split; [rewrite length_imap; lia|].
  split; [|split].
  - apply NoDup_alt. intros i j p. rewrite !list_lookup_fmap, !list_lookup_imap.
    destruct (ms !! i) as [mi|]; [|discriminate].
    destruct (ms !! j) as [mj|]; [|discriminate]. simpl.
    intros [= <-] [= Heq].
    assert (Hfmt : PyStr.fmt03 (j + 1) = PyStr.fmt03 (i + 1)).
    { revert Heq. generalize (PyStr.fmt03 (j + 1)), (PyStr.fmt03 (i + 1)).
      intros a b Hab.
      assert (Hcancel : forall u v w, u +:+ w = v +:+ w -> String.length u = String.length v -> u = v).
      { clear. induction u as [|c u IH]; intros [|d v] w H Hl; simpl in Hl; try lia.
        - reflexivity.
        - rewrite !append_cons in H. injection H as -> H. f_equal. apply (IH v w H). lia. }
      apply (Hcancel a b ".png" Hab).
      apply (f_equal String.length) in Hab. rewrite !length_append in Hab. lia. }
    apply fmt03_inj in Hfmt. lia.
  - intros i r Hi.
    destruct (Forall2_lookup_l _ _ _ _ _ Hcs Hi) as (c & Hci & Hc).
    destruct (Forall2_lookup_l _ _ _ _ _ Hms Hci) as (m & Hmi & Hm).
    exists c, m. split; [exact Hc|]. split; [exact Hm|].
    rewrite !list_lookup_imap, Hmi. by repeat split.
  - intros i Hi. by apply fmt03_three_digits.
Qed.

(** X17. Two annotation files that name the same image share their
    results: processed one after the other, both to the end, they write
    their tables to the same file [polygon_masks.csv] of the same
    directory, the table of the second replacing there the table of the
    first. *)
Theorem same_image_same_table (file1 file2 : PyPath.Path) (img : image)
    (rows1 rows2 : list AnnotationRecord) (st : state) :
  image_name_of (PyPath.stem file1) = image_name_of (PyPath.stem file2) ->
  images !! resolved file1 = Some img ->
  read_csv file1 = Return rows1 -> rows1 <> [] ->
  read_csv file2 = Return rows2 -> rows2 <> [] ->
  (forall r, r ∈ rows1 ++ rows2 ->
     exists c, predict img [(x r, y r)] [1%Z] false = Return c /\ c <> []) ->
  exists st1 st2 table1 table2,
    process file1 st = (Return tt, st1) /\
    process file2 st1 = (Return tt, st2) /\
    last (written st1) =
      Some (PyPath.joinpath (save_dir_of file1) "polygon_masks.csv",
            Csv result_columns table1) /\
    last (written st2) =
      Some (PyPath.joinpath (save_dir_of file1) "polygon_masks.csv",
            Csv result_columns table2) /\
    length table1 = length rows1 /\
    length table2 = length rows2.
Proof.
  intros Hname Himg Hread1 Hne1 Hread2 Hne2 Hall.
  assert (Hres : resolved file2 = resolved file1) by (unfold resolved; by rewrite Hname).
  assert (Hdir : save_dir_of file2 = save_dir_of file1) by (unfold save_dir_of; by rewrite Hres).
  assert (Himg2 : images !! resolved file2 = Some img) by (by rewrite Hres).
  destruct (predictions_exist score_ltb tie predict img rows1) as (cs1 & ms1 & Hcs1 & Hms1).
  { intros r Hr. apply Hall, elem_of_app. by left. }
  destruct (predictions_exist score_ltb tie predict img rows2) as (cs2 & ms2 & Hcs2 & Hms2).
  { intros r Hr. apply Hall, elem_of_app. by right. }
  destruct (last rows1) as [l1|] eqn:Hl1; [|apply last_None in Hl1; congruence].
  destruct (last rows2) as [l2|] eqn:Hl2; [|apply last_None in Hl2; congruence].
  eexists _, _, _, _.
  split; [exact (process_file_ok _ _ _ _ _ _ _ _ _ _ _ _ cs1 ms1 st Himg Hread1 Hl1 Hcs1 Hms1)|].
  split; [exact (process_file_ok _ _ _ _ _ _ _ _ _ _ _ _ cs2 ms2 _ Himg2 Hread2 Hl2 Hcs2 Hms2)|].
  simpl. split; [by rewrite !app_assoc, last_snoc|].
  split; [rewrite Hdir; by rewrite !app_assoc, last_snoc|].
  split; rewrite length_imap.
  - rewrite <- (Forall2_length _ _ _ Hms1). symmetry. apply (Forall2_length _ _ _ Hcs1).
  - rewrite <- (Forall2_length _ _ _ Hms2). symmetry. apply (Forall2_length _ _ _ Hcs2).
Qed.

End RunProperties.


(** ** The further properties on the small instance *)

Section MoreOnDemo.
Import Demo.

Local Abbreviation demo_process :=
  (process_file Z.ltb Np.stable images read_csv predict repr_other get_polygon save_image_masks).
Local Abbreviation demo_run :=
  (run Z.ltb Np.stable images read_csv predict repr_other get_polygon save_image_masks).

Lemma reordered_scores_descend_witness :
  StronglySorted (fun s s' => (s <? s')%Z = false)
    (sort_by_score Z.ltb Np.stable [(hole 10 10, 3%Z); (blob 10 10, 5%Z); (hole 50 50, 3%Z)]).2.
Proof.
  apply (reordered_scores_descend Z.ltb Np.stable Zltb_asym Zltb_negtrans).
Defined.


Lemma prompt_text_of_integers_witness :
  dtype (mkAnnotation 50 50 "b" EObject) = EObject /\
  row_text repr_other (mkAnnotation 50 50 "b" EObject) = PyStr.str_list [50%Z; 50%Z] /\
  row_text repr_other (mkAnnotation 50 50 "b" EObject) =
    "[" +:+ PyStr.str_int 50 +:+ ", " +:+ PyStr.str_int 50 +:+ "]".
Proof.
  split; [reflexivity|].
  apply (prompt_text_of_integers repr_other (mkAnnotation 50 50 "b" EObject) 50 50);
    reflexivity.
Defined.

Lemma str_list_injective_witness :
  PyStr.str_list [10%Z; 50%Z] = PyStr.str_list [(5 + 5)%Z; (100 / 2)%Z] /\
  [10%Z; 50%Z] = [(5 + 5)%Z; (100 / 2)%Z].
Proof.
  split; [reflexivity|].
  apply (str_list_injective [10%Z; 50%Z] [(5 + 5)%Z; (100 / 2)%Z]). reflexivity.
Defined.

Lemma annotation_file_resolution_witness :
  "vid_05_0001" <> EmptyString /\
  PyStr.contains "_" "points" = false /\
  PyPath.stem annotations = "vid_05_0001" +:+ "_" +:+ "points" /\
  resolved annotations = PyPath.joinpath image_dir ("vid_05_0001" +:+ ".jpg") /\
  save_dir_of annotations = PyPath.joinpath results_dir "vid_05_0001".
Proof.
  split; [discriminate|]. split; [reflexivity|].
  apply (annotation_file_resolution (PyPath.joinpath image_dir "Annotations")
           "vid_05_0001" "points"); [discriminate|reflexivity].
Defined.

Lemma stem_is_image_name_and_last_token_witness :
  PyStr.contains "_" "vid_05_0001_points" = true /\
  exists last,
    PyStr.contains "_" last = false /\
    "vid_05_0001_points" = image_name_of "vid_05_0001_points" +:+ "_" +:+ last.
Proof.
  split; [reflexivity|].
  apply (stem_is_image_name_and_last_token "vid_05_0001_points"). reflexivity.
Defined.

Lemma empty_image_name_results_dir_witness :
  image_name_of (PyPath.stem plain) = EmptyString /\
  resolved plain = PyPath.joinpath image_dir ".jpg" /\
  save_dir_of plain = PyPath.joinpath results_dir ".jpg".
Proof.
  split; [reflexivity|]. apply (empty_image_name_results_dir plain). reflexivity.
Defined.

Lemma write_loop_stops_at_empty_entry_witness :
  Forall2 (fun masks m => head masks = Some m) [[blob 10 10; hole 10 10]] [blob 10 10] /\
  row (mkState (Some (mkAnnotation 50 50 "b" EObject)) [] []) = Some (mkAnnotation 50 50 "b" EObject) /\
  write_loop repr_other get_polygon (save_dir_of annotations) "vid_05_0001.jpg" 0
    ([[blob 10 10; hole 10 10]] ++ [] :: [[blob 50 50]]) []
    (mkState (Some (mkAnnotation 50 50 "b" EObject)) [] []) =
  (Raise "IndexError",
   mkState (Some (mkAnnotation 50 50 "b" EObject))
     ([] ++ imap (fun k => png_of (save_dir_of annotations) (0 + k)) [blob 10 10]) []).
Proof.
  assert (H : Forall2 (fun masks m => head masks = Some m)
                [[blob 10 10; hole 10 10]] [blob 10 10]) by (repeat constructor).
  split; [exact H|]. split; [reflexivity|].
  apply (write_loop_stops_at_empty_entry repr_other get_polygon (save_dir_of annotations)
           "vid_05_0001.jpg" (mkAnnotation 50 50 "b" EObject) [[blob 10 10; hole 10 10]]
           [blob 10 10] [[blob 50 50]] 0 []
           (mkState (Some (mkAnnotation 50 50 "b" EObject)) [] []) H).
  reflexivity.
Defined.

Lemma demo_first_row_answered (r' : AnnotationRecord) :
  r' ∈ [mkAnnotation 10 10 "a" EObject] ->
  exists c, predict_failing 7%nat [(x r', y r')] [1%Z] false = Return c.
Proof.
  intros Hr. apply list_elem_of_singleton in Hr. subst r'. eexists. reflexivity.
Defined.

Lemma predictor_failure_writes_nothing_witness :
  images !! resolved annotations = Some 7%nat /\
  read_csv annotations = Return ([mkAnnotation 10 10 "a" EObject] ++ mkAnnotation 50 50 "b" EObject :: []) /\
  predict_failing 7%nat [(VInt 50, VInt 50)] [1%Z] false = Raise "RuntimeError" /\
  process_file Z.ltb Np.stable images read_csv predict_failing repr_other get_polygon save_image_masks
    annotations start =
    (Raise "RuntimeError",
     mkState (Some (mkAnnotation 50 50 "b" EObject)) (written start)
       (issued start ++ map prompt_of ([mkAnnotation 10 10 "a" EObject] ++ [mkAnnotation 50 50 "b" EObject]))) /\
  run Z.ltb Np.stable images read_csv predict_failing repr_other get_polygon save_image_masks
    (annotations :: [second]) start =
    (Raise "RuntimeError",
     mkState (Some (mkAnnotation 50 50 "b" EObject)) (written start)
       (issued start ++ map prompt_of ([mkAnnotation 10 10 "a" EObject] ++ [mkAnnotation 50 50 "b" EObject]))).
Proof.
  split; [reflexivity|]. split; [reflexivity|]. split; [reflexivity|].
  apply (predictor_failure_writes_nothing Z.ltb Np.stable images read_csv predict_failing repr_other get_polygon
           save_image_masks annotations 7%nat [mkAnnotation 10 10 "a" EObject]
           (mkAnnotation 50 50 "b" EObject) [] "RuntimeError" [second] start).
  - reflexivity.
  - reflexivity.
  - exact demo_first_row_answered.
  - reflexivity.
Defined.

Lemma empty_frame_ends_the_run_witness :
  images !! resolved annotations = Some 7%nat /\
  read_csv_empty annotations = Return [] /\
  exists e,
    process_file Z.ltb Np.stable images read_csv_empty predict repr_other get_polygon save_image_masks
      annotations start = (Raise e, start) /\
    run Z.ltb Np.stable images read_csv_empty predict repr_other get_polygon save_image_masks
      (annotations :: [second]) start = (Raise e, start).
Proof.
  split; [reflexivity|]. split; [reflexivity|].
  apply (empty_frame_ends_the_run Z.ltb Np.stable images read_csv_empty predict repr_other get_polygon
           save_image_masks annotations 7%nat [second] start); reflexivity.
Defined.

Lemma demo_answers_both (r : AnnotationRecord) :
  r ∈ rows ++ rows ->
  exists c, predict 7%nat [(x r, y r)] [1%Z] false = Return c /\ c <> [].
Proof. intros Hr. apply demo_answers. apply elem_of_app in Hr. tauto. Defined.

Lemma prompt_column_is_last_point_witness :
  images !! resolved annotations = Some 7%nat /\
  read_csv annotations = Return rows /\
  last rows = Some (mkAnnotation 50 50 "b" EObject) /\
  exists st' table,
    demo_process annotations start = (Return tt, st') /\
    last (written st') =
      Some (PyPath.joinpath (save_dir_of annotations) "polygon_masks.csv",
            Csv result_columns table) /\
    length table = length rows /\
    Forall (fun rec => prompt rec = row_text repr_other (mkAnnotation 50 50 "b" EObject)) table /\
    row_text repr_other (mkAnnotation 50 50 "b" EObject) = "[50, 50]" /\
    row st' = Some (mkAnnotation 50 50 "b" EObject).
Proof.
  split; [reflexivity|]. split; [reflexivity|]. split; [reflexivity|].
  destruct (prompt_column_is_last_point Z.ltb Np.stable images read_csv predict repr_other
              get_polygon save_image_masks annotations 7%nat rows
              (mkAnnotation 50 50 "b" EObject) start eq_refl eq_refl eq_refl demo_answers)
    as (st' & table & Hp & Hw & Hl & Hf & Hr).
  exists st', table. repeat (split; [assumption|]). split; [reflexivity|exact Hr].
Defined.

Lemma one_prompt_per_row_witness :
  images !! resolved annotations = Some 7%nat /\
  read_csv annotations = Return rows /\
  issued (demo_process annotations start).2 = issued start ++ map prompt_of rows.
Proof.
  split; [reflexivity|]. split; [reflexivity|].
  apply (one_prompt_per_row Z.ltb Np.stable images read_csv predict repr_other get_polygon save_image_masks
           annotations 7%nat rows start).
  - reflexivity.
  - reflexivity.
  - exact demo_answers_all.
Defined.

Lemma one_mask_and_one_row_per_point_witness :
  images !! resolved annotations = Some 7%nat /\
  read_csv annotations = Return rows /\
  rows <> [] /\
  exists st' all_masks pngs table,
    demo_process annotations start = (Return tt, st') /\
    written st' =
      written start ++
      save_image_masks all_masks (PyPath.stem (resolved annotations)) results_dir ++
      pngs ++
      [(PyPath.joinpath (save_dir_of annotations) "polygon_masks.csv",
        Csv result_columns table)] /\
    length pngs = length rows /\
    length table = length rows /\
    NoDup pngs.*1 /\
    (forall i r, rows !! i = Some r ->
       exists c m,
         predict 7%nat [(x r, y r)] [1%Z] false = Return c /\
         retained Z.ltb Np.stable c = Some m /\
         pngs !! i =
           Some (PyPath.joinpath (save_dir_of annotations) (PyStr.fmt03 (i + 1) +:+ ".png"),
                 Png (mask_to_uint8 m)) /\
         mask_id <$> table !! i = Some (PyStr.fmt03 (i + 1)) /\
         polygon <$> table !! i =
           Some (PyStr.str_list (ravel (get_polygon (mask_to_uint8 m))))) /\
    (forall i, (i < 1000)%nat -> PyStr.fmt03 i = three_digits i).
Proof.
  split; [reflexivity|]. split; [reflexivity|]. split; [discriminate|].
  apply (one_mask_and_one_row_per_point Z.ltb Np.stable images read_csv predict repr_other
           get_polygon save_image_masks annotations 7%nat rows start).
  - reflexivity.
  - reflexivity.
  - discriminate.
  - exact demo_answers.
Defined.

Lemma same_image_same_table_witness :
  image_name_of (PyPath.stem annotations) = image_name_of (PyPath.stem second) /\
  images !! resolved annotations = Some 7%nat /\
  read_csv annotations = Return rows /\
  read_csv second = Return rows /\
  rows <> [] /\
  exists st1 st2 table1 table2,
    demo_process annotations start = (Return tt, st1) /\
    demo_process second st1 = (Return tt, st2) /\
    last (written st1) =
      Some (PyPath.joinpath (save_dir_of annotations) "polygon_masks.csv",
            Csv result_columns table1) /\
    last (written st2) =
      Some (PyPath.joinpath (save_dir_of annotations) "polygon_masks.csv",
            Csv result_columns table2) /\
    length table1 = length rows /\
    length table2 = length rows.
Proof.
  split; [reflexivity|]. split; [reflexivity|]. split; [reflexivity|].
  split; [reflexivity|]. split; [discriminate|].
  apply (same_image_same_table Z.ltb Np.stable images read_csv predict repr_other get_polygon save_image_masks
           annotations second 7%nat rows rows start).
  - reflexivity.
  - reflexivity.
  - reflexivity.
  - discriminate.
  - reflexivity.
  - discriminate.
  - exact demo_answers_both.
Defined.

End MoreOnDemo.
